(** * Legal-Document-Analyzer: dispatch, fallback and upload staging

    A shallow embedding of the three JavaScript sources

    - [api/legal-ai.js]       the backend handler and [LegalAIService],
    - [api-integrations.js]   the browser-side dispatcher [legalAPIs],
    - [main.js]               the upload staging of the page,

    together with the properties their specification states about them.

    Conventions of the embedding.

    - A JavaScript string is the list of its UTF-16 code units, which is
      what [length], [substring], [trim] and a regular expression without
      the [u] flag operate on.
    - Asynchronous functions are run to completion: an [await] is a bind of
      the monad [M], a rejected promise is a [Throw].
    - Everything outside the process (the generative model, [fetch], the
      clock) is a field of a [World]; the exchanges a run makes are
      recorded in its state.
    - Request fields are strings or absent, as the dispatcher sends them;
      JSON received from upstream is read at the shape the code reads it,
      every field optional. *)

From Stdlib Require Import List NArith ZArith Arith Bool Lia String Ascii.
From Stdlib Require DecimalString.
Import ListNotations.
Local Open Scope list_scope.
#[local] Set Warnings "-abstract-large-number".

(* ================================================================== *)
(** ** Strings and values *)
(* ================================================================== *)

Module Js.

Definition jsstring : Type := list N.

(** An ASCII literal as code units. *)
Definition js (s : string) : jsstring :=
  map N_of_ascii (list_ascii_of_string s).
Arguments js s%_string.

Definition dq : jsstring := [34%N].          (* the double quote *)
Definition nl : jsstring := [10%N].          (* \n *)

(** The symbols of the templates that are outside ASCII. *)
Definition warning_sign : jsstring := [9888%N; 65039%N].       (* U+26A0 U+FE0F *)
Definition check_mark : jsstring := [9989%N].                  (* U+2705 *)
Definition magnifier : jsstring := [55357%N; 56589%N].         (* U+1F50D *)
Definition robot_face : jsstring := [55358%N; 56598%N].        (* U+1F916 *)
Definition page_facing_up : jsstring := [55357%N; 56516%N].    (* U+1F4C4 *)
Definition scales : jsstring := [9878%N; 65039%N].             (* U+2696 U+FE0F *)

Definition str_eq_dec : forall a b : jsstring, {a = b} + {a <> b} :=
  list_eq_dec N.eq_dec.

Definition str_eqb (a b : jsstring) : bool :=
  if str_eq_dec a b then true else false.

(** [!!s] *)
Definition truthy (s : jsstring) : bool :=
  match s with [] => false | _ :: _ => true end.

(** [a || b] on strings *)
Definition or_else (a b : jsstring) : jsstring :=
  if truthy a then a else b.

(** [s.substring(0, n)] *)
Definition substring0 (n : nat) (s : jsstring) : jsstring := firstn n s.

(** Decimal rendering of a non-negative integer, as a template does it. *)
Definition dec_N (n : N) : jsstring :=
  js (DecimalString.NilZero.string_of_uint (N.to_uint n)).

Definition dec (n : nat) : jsstring := dec_N (N.of_nat n).

(** [parts.join(sep)] *)
Fixpoint join (sep : jsstring) (parts : list jsstring) : jsstring :=
  match parts with
  | [] => []
  | [p] => p
  | p :: rest => p ++ sep ++ join sep rest
  end.

(** *** Line terminators and white space *)

Definition is_line_terminator (c : N) : bool :=
  (N.eqb c 10 || N.eqb c 13 || N.eqb c 8232 || N.eqb c 8233)%N.

Definition is_white_space (c : N) : bool :=
  (N.eqb c 9 || N.eqb c 11 || N.eqb c 12 || N.eqb c 32 || N.eqb c 160
   || N.eqb c 65279 || N.eqb c 5760
   || (N.leb 8192 c && N.leb c 8202)
   || N.eqb c 8239 || N.eqb c 8287 || N.eqb c 12288)%N.

Definition trimmable (c : N) : bool :=
  is_white_space c || is_line_terminator c.

Fixpoint trim_start (s : jsstring) : jsstring :=
  match s with
  | [] => []
  | c :: s' => if trimmable c then trim_start s' else s
  end.

Definition trim_end (s : jsstring) : jsstring := rev (trim_start (rev s)).

(** [s.trim()] *)
Definition trim (s : jsstring) : jsstring := trim_end (trim_start s).

(** *** Searching *)

(** [strip_prefix p s] is what follows [p] when [s] starts with [p]. *)
Fixpoint strip_prefix (p s : jsstring) : option jsstring :=
  match p, s with
  | [], _ => Some s
  | _ :: _, [] => None
  | c :: p', d :: s' => if N.eqb c d then strip_prefix p' s' else None
  end.

Definition starts_with (p s : jsstring) : bool :=
  match strip_prefix p s with Some _ => true | None => false end.

(** [hay.includes(needle)] *)
Fixpoint includes (needle hay : jsstring) : bool :=
  starts_with needle hay ||
  match hay with
  | [] => false
  | _ :: hay' => includes needle hay'
  end.

(** *** The pattern [/\[Legal entities:.*?\]/g]

    The pattern is a literal head, a lazy run of [.] and a closing
    bracket.  [.] matches every code unit but a line terminator, so
    from the end of the head the shortest match ends at the first
    closing bracket, if no line terminator comes before it. *)

Definition annotation_head : jsstring := js "[Legal entities:".
Definition close_bracket : N := 93%N.

(** Number of code units matched by [.*?\]], if it matches. *)
Fixpoint lazy_dots_bracket (s : jsstring) : option nat :=
  match s with
  | [] => None
  | c :: s' =>
      if N.eqb c close_bracket then Some 1
      else if is_line_terminator c then None
      else option_map S (lazy_dots_bracket s')
  end.

(** Length of the match of the whole pattern at the start of [s]. *)
Definition match_annotation (s : jsstring) : option nat :=
  match strip_prefix annotation_head s with
  | Some rest => option_map (Nat.add (List.length annotation_head)) (lazy_dots_bracket rest)
  | None => None
  end.

(** [s.replace(/\[Legal entities:.*?\]/g, '')]: matches are looked for
    from left to right; a match is dropped and the search resumes after
    it.  [skip] counts the units of the current match still to drop. *)
Fixpoint replace_from (skip : nat) (s : jsstring) : jsstring :=
  match s with
  | [] => []
  | c :: s' =>
      match skip with
      | S k => replace_from k s'
      | O =>
          match match_annotation s with
          | Some (S k) => replace_from k s'
          | _ => c :: replace_from 0 s'
          end
      end
  end.

Definition remove_annotations (s : jsstring) : jsstring := replace_from 0 s.

(** *** Numbers received from upstream

    A sentiment score is an IEEE double sent by the language service.
    The code inspects it in four ways, and a [number] is those four
    observations: how a template renders it, whether it is truthy, and
    its position with respect to 0.1 and -0.1. *)
Record number : Type := mkNumber {
  num_text : jsstring;
  num_truthy : bool;
  num_gt_tenth : bool;
  num_lt_minus_tenth : bool
}.

Definition zero : number := mkNumber (js "0") false false false.

(** *** JSON values sent back to the caller *)
#[local] Set Warnings "-register-all".
Inductive value : Type :=
  | VUndefined
  | VNull
  | VBool (b : bool)
  | VNum (n : number)
  | VStr (s : jsstring)
  | VArr (items : list value)
  | VObj (fields : list (jsstring * value)).

(** [o.k] on an object literal *)
Fixpoint lookup (k : jsstring) (fields : list (jsstring * value)) : value :=
  match fields with
  | [] => VUndefined
  | (k', v) :: rest => if str_eqb k k' then v else lookup k rest
  end.

Definition get (v : value) (k : jsstring) : value :=
  match v with
  | VObj fields => lookup k fields
  | _ => VUndefined
  end.

Definition keys (v : value) : list jsstring :=
  match v with
  | VObj fields => map fst fields
  | _ => []
  end.

Definition is_string (v : value) : bool :=
  match v with VStr _ => true | _ => false end.

(** Errors: [new Error(message)], and the [TypeError]s the engine raises
    itself, whose wording is the engine's. *)
Inductive error_kind : Type := PlainError | TypeError.

Record error : Type := mkError {
  err_kind : error_kind;
  message : jsstring
}.

Definition Error (m : jsstring) : error := mkError PlainError m.

(** *** Strings that may be [undefined] *)

(** [!!v] for a value that is a string or [undefined] *)
Definition configured (v : option jsstring) : bool :=
  match v with
  | Some s => truthy s
  | None => false
  end.

(** A string-or-undefined inside a template literal. *)
Definition tpl (v : option jsstring) : jsstring :=
  match v with
  | Some s => s
  | None => js "undefined"
  end.

(** A string-or-undefined as a JSON value. *)
Definition of_opt (v : option jsstring) : value :=
  match v with
  | Some s => VStr s
  | None => VUndefined
  end.

(** [v] with a default, as for a parameter [v = d] *)
Definition default_to (d : jsstring) (v : option jsstring) : jsstring :=
  match v with
  | Some s => s
  | None => d
  end.

(** *** Completions and the network *)

(** How a piece of code completes: [return a] or [throw e]; for an
    asynchronous function, the fate of its promise. *)
Inductive completion (A : Type) : Type :=
  | Return (a : A)
  | Throw (e : error).
Arguments Return {A} a.
Arguments Throw {A} e.

(** A [fetch] either rejects or resolves to a response with a status,
    whose [json()] resolves to a body or rejects. *)
Inductive fetch_result (B : Type) : Type :=
  | FetchRejected (e : error)
  | Response (status : nat) (json : error + B).
Arguments FetchRejected {B} e.
Arguments Response {B} status json.

(** [response.ok] *)
Definition ok (status : nat) : bool := (200 <=? status) && (status <=? 299).

Record request : Type := mkRequest {
  req_url : jsstring;
  req_headers : list (jsstring * jsstring);
  req_body : value                       (* the object given to JSON.stringify *)
}.

End Js.

Import Js.
(* ================================================================== *)
(** ** The backend: [api/legal-ai.js] *)
(* ================================================================== *)

Module Backend.

(** *** Configuration *)

(** [process.env] at the names the module reads. *)
Record Env : Type := mkEnv {
  GEMINI_API_KEY : option jsstring;
  GOOGLE_TRANSLATE_API_KEY : option jsstring;
  GOOGLE_DOCUMENT_AI_API_KEY : option jsstring;
  GOOGLE_NATURAL_LANGUAGE_API_KEY : option jsstring;
  HUGGINGFACE_API_KEY : option jsstring
}.

(** [API_CONFIG], at the entries the service reads. *)
Record ApiConfig : Type := mkApiConfig {
  GEMINI_KEY : option jsstring;
  GEMINI_MODEL : jsstring;
  TRANSLATE_KEY : option jsstring;
  TRANSLATE_BASE_URL : jsstring;
  DOCUMENT_AI_KEY : option jsstring;
  NATURAL_LANGUAGE_KEY : option jsstring;
  NATURAL_LANGUAGE_BASE_URL : jsstring;
  HUGGINGFACE_KEY : option jsstring;
  HUGGINGFACE_BASE_URL : jsstring;
  HUGGINGFACE_SUMMARIZATION_MODEL : jsstring
}.

Definition API_CONFIG (env : Env) : ApiConfig := {|
  GEMINI_KEY := GEMINI_API_KEY env;
  GEMINI_MODEL := js "gemini-1.5-pro";
  TRANSLATE_KEY := GOOGLE_TRANSLATE_API_KEY env;
  TRANSLATE_BASE_URL := js "https://translation.googleapis.com/language/translate/v2";
  DOCUMENT_AI_KEY := GOOGLE_DOCUMENT_AI_API_KEY env;
  NATURAL_LANGUAGE_KEY := GOOGLE_NATURAL_LANGUAGE_API_KEY env;
  NATURAL_LANGUAGE_BASE_URL := js "https://language.googleapis.com/v1";
  HUGGINGFACE_KEY := HUGGINGFACE_API_KEY env;
  HUGGINGFACE_BASE_URL := js "https://api-inference.huggingface.co/models";
  HUGGINGFACE_SUMMARIZATION_MODEL := js "facebook/bart-large-cnn"
|}.

(** *** What comes back from upstream *)

Record entity : Type := mkEntity {
  ent_name : option jsstring;
  ent_type : option jsstring
}.

Record sentiment : Type := mkSentiment { score : option number }.

(** Body of the language service: [data.entities], [data.documentSentiment]. *)
Record nlp_body : Type := mkNlpBody {
  body_entities : option (list entity);
  body_documentSentiment : option sentiment
}.

(** Body of the translation service: [data.data.translations[i].translatedText]. *)
Record translation_item : Type := mkTranslation { translatedText : option jsstring }.
Record translate_data : Type := mkTranslateData { translations : option (list translation_item) }.
Record translate_body : Type := mkTranslateBody { body_data : option translate_data }.

(** Body of the summarisation model: an array of records or one record. *)
Inductive hf_body : Type :=
  | HfArray (items : list (option jsstring))      (* the [summary_text] of each item *)
  | HfObject (summary_text : option jsstring).

(** The world outside the process.  The first argument of an oracle is
    the number of exchanges the process has made so far, so an upstream
    service may answer the same request differently at different times. *)
Record World : Type := mkWorld {
  generateContent : nat -> jsstring -> jsstring -> jsstring -> error + jsstring;
  fetch_language : nat -> request -> fetch_result nlp_body;
  fetch_translate : nat -> request -> fetch_result translate_body;
  fetch_huggingface : nat -> request -> fetch_result hf_body;
  elapsed : nat -> Z;                     (* milliseconds taken by an exchange *)
  toISOString : Z -> jsstring;            (* Date.prototype.toISOString *)
  type_error_message : jsstring -> jsstring;   (* the engine's wording *)
  object_prototype : jsstring -> option jsstring   (* rendering of an inherited member *)
}.

(** One exchange with upstream, as the trace records it. *)
Inductive exchange : Type :=
  | XGenerate (prompt : jsstring) (r : error + jsstring)
  | XLanguage (rq : request) (r : fetch_result nlp_body)
  | XTranslate (rq : request) (r : fetch_result translate_body)
  | XHuggingFace (rq : request) (r : fetch_result hf_body).

(** *** State of the process *)

Record GenerativeModel : Type := mkModel {
  gm_apiKey : jsstring;
  gm_model : jsstring
}.

Record State : Type := mkState {
  model : option GenerativeModel;         (* the module variable [model] *)
  now : Z;                                (* the clock, in milliseconds *)
  exchanges : list exchange               (* what was exchanged with upstream *)
}.

(** *** Running asynchronous code *)

Definition M (A : Type) : Type := State -> completion A * State.

Definition ret {A} (a : A) : M A := fun s => (Return a, s).

Definition throw {A} (e : error) : M A := fun s => (Throw e, s).

Definition bind {A B} (m : M A) (k : A -> M B) : M B :=
  fun s =>
    match m s with
    | (Return a, s') => k a s'
    | (Throw e, s') => (Throw e, s')
    end.

(** [try { m } catch (e) { handler e }] *)
Definition try_catch {A} (m : M A) (handler : error -> M A) : M A :=
  fun s =>
    match m s with
    | (Return a, s') => (Return a, s')
    | (Throw e, s') => handler e s'
    end.

Declare Scope js_scope.
Delimit Scope js_scope with js.
Notation "x <- m ;; k" := (bind m (fun x => k))
  (at level 100, m at next level, right associativity) : js_scope.
Notation "m ;;; k" := (bind m (fun _ => k))
  (at level 100, right associativity) : js_scope.
Local Open Scope js_scope.

Definition result_of {A} (r : completion A * State) : completion A := fst r.
Definition state_of {A} (r : completion A * State) : State := snd r.

(** *** The service *)

Record Services : Type := mkServices {
  ai : list jsstring;
  nlp : bool;
  documentAI : bool;
  translation : bool;
  huggingface : bool
}.

Record LegalAIService : Type := mkService { availableServices : Services }.

(** What [_analyzeWithNaturalLanguage] hands to its callers.  Its [syntax]
    and [classification] entries are read by none of them. *)
Record nlp_analysis : Type := mkAnalysis {
  entities : list entity;
  sentiment_of : sentiment
}.

(** A numeric literal of the source that is above 0.1. *)
Definition literal (text : jsstring) : number := mkNumber text true true false.

Section Service.

Variable w : World.
Variable cfg : ApiConfig.

(** Every exchange is appended to the trace and takes its time. *)
Definition record_exchange (x : exchange) (s : State) : State :=
  {| model := model s;
     now := (now s + elapsed w (List.length (exchanges s)))%Z;
     exchanges := exchanges s ++ [x] |}.

(** The [TypeError] of the engine for a failed access to [what]. *)
Definition type_error (what : jsstring) : error :=
  mkError TypeError (type_error_message w what).

(** [v.substring(0, n)] where [v] may be [undefined] *)
Definition substring_of (v : option jsstring) (n : nat) : M jsstring :=
  match v with
  | Some s => ret (substring0 n s)
  | None => throw (type_error (js "substring"))
  end.

(** [new Date().toISOString()] *)
Definition timestamp : M jsstring :=
  fun s => (Return (toISOString w (now s)), s).

(** [model.generateContent(fullPrompt)], then [response.text()] *)
Definition generate (fullPrompt : jsstring) : M jsstring :=
  fun s =>
    match model s with
    | None => (Throw (type_error (js "generateContent")), s)
    | Some m =>
        let r := generateContent w (List.length (exchanges s))
                   (gm_apiKey m) (gm_model m) fullPrompt in
        let s' := record_exchange (XGenerate fullPrompt r) s in
        match r with
        | inl e => (Throw e, s')
        | inr text => (Return text, s')
        end
    end.

(** [await fetch(url, { method: 'POST', headers, body })] *)
Definition fetching {B} (oracle : nat -> request -> fetch_result B)
    (tag : request -> fetch_result B -> exchange) (rq : request)
  : M (nat * (error + B)) :=
  fun s =>
    let r := oracle (List.length (exchanges s)) rq in
    let s' := record_exchange (tag rq r) s in
    match r with
    | FetchRejected e => (Throw e, s')
    | Response status body => (Return (status, body), s')
    end.

(** [await response.json()] *)
Definition json_of {B} (body : error + B) : M B :=
  match body with
  | inr b => ret b
  | inl e => throw e
  end.

Definition json_headers : list (jsstring * jsstring) :=
  [(js "Content-Type", js "application/json")].

(** **** Private methods *)

Definition systemPrompt : jsstring :=
  js "You are an expert legal AI assistant specializing in Indian law and legal document analysis. Provide accurate, detailed, and practical legal insights. Focus on Indian legal framework, acts, and precedents.".

Definition _callGemini (prompt type : jsstring) : M jsstring :=
  try_catch
    (generate (systemPrompt ++ nl ++ nl ++ prompt))
    (fun error => throw (Error (js "Gemini API error: " ++ message error))).

Definition language_request (content : jsstring) : request := {|
  req_url := NATURAL_LANGUAGE_BASE_URL cfg ++ js "/documents:analyzeEntities?key="
             ++ tpl (NATURAL_LANGUAGE_KEY cfg);
  req_headers := json_headers;
  req_body := VObj [
    (js "document", VObj [(js "content", VStr content);
                          (js "type", VStr (js "PLAIN_TEXT"))]);
    (js "features", VObj [(js "extractSyntax", VBool true);
                          (js "extractEntities", VBool true);
                          (js "extractDocumentSentiment", VBool true);
                          (js "classifyText", VBool true)])]
|}.

Definition no_analysis : nlp_analysis :=
  {| entities := []; sentiment_of := {| score := Some zero |} |}.

Definition _analyzeWithNaturalLanguage (text : option jsstring) : M nlp_analysis :=
  try_catch
    (content <- substring_of text 10000 ;;
     response <- fetching (fetch_language w) XLanguage (language_request content) ;;
     if negb (ok (fst response))
     then throw (Error (js "Natural Language API error: " ++ dec (fst response)))
     else
       data <- json_of (snd response) ;;
       ret {| entities := match body_entities data with
                          | Some l => l
                          | None => []
                          end;
              sentiment_of := match body_documentSentiment data with
                              | Some sn => sn
                              | None => {| score := Some zero |}
                              end |})
    (fun error => ret no_analysis).

Definition huggingface_request (inputs : jsstring) : request := {|
  req_url := HUGGINGFACE_BASE_URL cfg ++ js "/" ++ HUGGINGFACE_SUMMARIZATION_MODEL cfg;
  req_headers := [(js "Authorization", js "Bearer " ++ tpl (HUGGINGFACE_KEY cfg));
                  (js "Content-Type", js "application/json")];
  req_body := VObj [
    (js "inputs", VStr inputs);
    (js "parameters", VObj [(js "max_length", VNum (literal (js "200")));
                            (js "min_length", VNum (literal (js "50")));
                            (js "temperature", VNum (literal (js "0.3")))])]
|}.

(** The summary read from the body; [None] stands for [null] and
    [undefined], which the caller does not tell apart. *)
Definition _summarizeWithHuggingFace (text : option jsstring) (type : jsstring)
  : M (option jsstring) :=
  try_catch
    (inputs <- substring_of text 1000 ;;
     response <- fetching (fetch_huggingface w) XHuggingFace (huggingface_request inputs) ;;
     if negb (ok (fst response))
     then throw (Error (js "Hugging Face API error: " ++ dec (fst response)))
     else
       data <- json_of (snd response) ;;
       match data with
       | HfArray [] => throw (type_error (js "summary_text"))
       | HfArray (first :: _) => ret first
       | HfObject summary => ret summary
       end)
    (fun error => ret None).

Definition _searchWithNaturalLanguage (query text : option jsstring) : M jsstring :=
  ret (js "NLP-based search results for: " ++ tpl query).

Definition _searchLegalEntities (query text : option jsstring) : M jsstring :=
  ret (js "Legal entity search results for: " ++ tpl query).

(** **** Utility methods *)

Definition _buildLegalPrompt (question : option jsstring) (context : jsstring) : jsstring :=
  js "As an expert in Indian law, please provide a comprehensive answer to this legal question:

Question: "
  ++ tpl question
  ++ js "

Context: "
  ++ context
  ++ js "

Please include:
1. Relevant Indian laws and sections
2. Legal precedents if applicable
3. Practical implications
4. Step-by-step guidance
5. Important deadlines or procedures

Response:".

(** [table[key]] rendered in a template: an own entry, else what the key
    inherits from [Object.prototype], else [undefined]. *)
Definition entry (table : list (jsstring * jsstring)) (key : jsstring) : jsstring :=
  match find (fun kv => str_eqb key (fst kv)) table with
  | Some kv => snd kv
  | None => tpl (object_prototype w key)
  end.

Definition typeInstructions : list (jsstring * jsstring) :=
  [(js "comprehensive", js "Provide a comprehensive summary covering all key aspects");
   (js "executive", js "Focus on executive-level insights and key decisions");
   (js "keypoints", js "Extract and list the most important key points");
   (js "timeline", js "Present events and decisions in chronological order")].

Definition lengthInstructions : list (jsstring * jsstring) :=
  [(js "short", js "in 2-3 concise paragraphs");
   (js "medium", js "in 4-6 detailed paragraphs");
   (js "long", js "in a comprehensive analysis with multiple sections")].

Definition _buildSummarizationPrompt (text : option jsstring)
    (type length nlpAnalysis : jsstring) : M jsstring :=
  excerpt <- substring_of text 4000 ;;
  ret (js "You are an expert legal document analyst specializing in Indian law. 
        Please analyze the following legal document and provide a "
  ++ type
  ++ js " summary "
  ++ entry lengthInstructions length
  ++ js ".

        "
  ++ entry typeInstructions type
  ++ js "

        "
  ++ (if truthy nlpAnalysis then js "NLP Analysis Insights: " ++ nlpAnalysis else [])
  ++ js "

        Document to analyze:
        "
  ++ excerpt
  ++ js "...

        Please structure your summary with:
        1. Document Type and Overview
        2. Key Legal Issues
        3. Important Parties Involved
        4. Critical Dates and Deadlines
        5. Legal Implications
        6. Actionable Items (if any)

        Summary:").

Definition _buildSearchPrompt (query documentText : option jsstring) : M jsstring :=
  excerpt <- substring_of documentText 3000 ;;
  ret (js "You are an AI legal research assistant specializing in Indian law. 
        Based on the following document content, please perform a semantic search for: "
  ++ dq
  ++ tpl query
  ++ dq
  ++ js "

        Document content:
        "
  ++ excerpt
  ++ js "...

        Please provide:
        1. Relevant sections that match the search query
        2. Legal concepts and terms related to the query
        3. Any applicable Indian laws or acts mentioned
        4. Case law references if any
        5. Practical implications
        6. Related legal concepts to explore

        Search Results:").

(** [nlpResult.sentiment?.score || 0] *)
Definition score_or_zero (sn : sentiment) : number :=
  match score sn with
  | Some n => if num_truthy n then n else zero
  | None => zero
  end.

(** The guard [!nlpResult || !nlpResult.entities] of the source never
    holds for the record [_analyzeWithNaturalLanguage] returns, whose
    [entities] is always an array. *)
Definition _formatNLPAnalysis (nlpResult : nlp_analysis) : jsstring :=
  let listed :=
    join (js ", ")
      (map (fun e => tpl (ent_name e) ++ js " (" ++ tpl (ent_type e) ++ js ")")
           (firstn 10 (entities nlpResult))) in
  let sentiment := score_or_zero (sentiment_of nlpResult) in
  js "Key entities detected: "
  ++ listed
  ++ js ". Document sentiment: "
  ++ (if num_gt_tenth sentiment then js "positive"
      else if num_lt_minus_tenth sentiment then js "negative"
      else js "neutral")
  ++ js ".".

(** **** Fallback methods *)

Definition _getFallbackLegalResponse (question : option jsstring) : jsstring :=
  js "**Legal Question: "
  ++ dq
  ++ tpl question
  ++ dq
  ++ js "**

"
  ++ warning_sign
  ++ js " *This is a demonstration response. Configure your Gemini API key for full functionality.*

For comprehensive legal advice on this question, I recommend:

**Relevant Indian Legal Framework:**
- The Indian Constitution (Fundamental Rights & DPSP)
- Indian Contract Act, 1872
- Indian Penal Code, 1860
- Code of Civil Procedure, 1908
- Indian Evidence Act, 1872

**Recommended Actions:**
1. Consult with a qualified legal practitioner
2. Review relevant case law on legal databases
3. Check for recent amendments to applicable acts
4. Consider jurisdiction-specific variations

**Legal Resources:**
- Supreme Court of India judgments
- High Court decisions
- Legal databases (Manupatra, SCC Online)
- Bar Council of India guidelines

*For personalized legal advice, please consult with a licensed attorney.*".

Definition _getFallbackSummary (summaryType summaryLength : jsstring) : jsstring :=
  js "**Enhanced Document Summary ("
  ++ summaryType
  ++ js " - "
  ++ summaryLength
  ++ js ")**

"
  ++ warning_sign
  ++ js " *This is a demonstration summary. Configure your Gemini API key for intelligent analysis.*

**Gemini AI Analysis Available:**
With proper API configuration, this system provides:

"
  ++ check_mark
  ++ js " **Gemini AI Integration** - Advanced legal analysis
"
  ++ check_mark
  ++ js " **Document Structure Analysis** (Google Document AI)
"
  ++ check_mark
  ++ js " **Natural Language Processing** (Google Natural Language)
"
  ++ check_mark
  ++ js " **Specialized Legal Models** (Hugging Face)

**Setup Required:**
Configure your GEMINI_API_KEY environment variable to unlock all AI-powered features for comprehensive legal document analysis.".

Definition _getFallbackTranslation (text sourceLang targetLang : option jsstring) : jsstring :=
  js "**Enhanced Translation System**

Original text: "
  ++ tpl text
  ++ js "

Configure Google Translate API for professional legal document translation with:
- Context-aware translation
- Legal terminology preservation
- Entity recognition
- Quality assurance

*Sample translation shown - configure APIs for full functionality.*".

Definition _getFallbackSearchResults (query : option jsstring) : jsstring :=
  js "**Gemini AI Semantic Search Results for: "
  ++ dq
  ++ tpl query
  ++ dq
  ++ js "**

"
  ++ warning_sign
  ++ js " *Configure your Gemini API key for comprehensive search capabilities.*

**Enhanced Search Features Available:**
"
  ++ magnifier
  ++ js " **Google Natural Language API** - Entity and sentiment analysis
"
  ++ robot_face
  ++ js " **Gemini AI** - Advanced reasoning and analysis
"
  ++ page_facing_up
  ++ js " **Document AI** - Structure and content understanding
"
  ++ scales
  ++ js " **Legal Specialization** - Indian law expertise

**Sample Legal Database Results:**
1. **Indian Contract Act, 1872** - Sections related to your query
2. **Indian Penal Code, 1860** - Criminal law provisions
3. **Constitution of India** - Fundamental rights and duties
4. **Recent Case Law** - Supreme Court and High Court decisions

**Setup Instructions:**
Configure your GEMINI_API_KEY environment variable to unlock intelligent semantic search.".

(** One entry of [searchResults]: [{ source, results }]. *)
Definition _combineSearchResults (results : list (jsstring * jsstring))
    (query : option jsstring) : jsstring :=
  match results with
  | [] => _getFallbackSearchResults query
  | _ :: _ =>
      js "**Enhanced Semantic Search Results for: " ++ dq ++ tpl query ++ dq
      ++ js "**" ++ nl ++ nl
      ++ List.concat (map (fun result =>
                        js "### " ++ fst result ++ js " Analysis" ++ nl
                        ++ snd result ++ nl ++ nl) results)
      ++ nl ++ js "**Gemini AI Analysis Complete** " ++ check_mark ++ nl
      ++ js "Used " ++ dec (List.length results)
      ++ js " service(s) for comprehensive analysis."
  end.

(** **** Public methods

    Every method returns the value that ends up in the [data] entry of
    the envelope. *)

Definition new_LegalAIService : LegalAIService := {|
  availableServices := {|
    ai := [js "gemini"];
    nlp := configured (NATURAL_LANGUAGE_KEY cfg);
    documentAI := configured (DOCUMENT_AI_KEY cfg);
    translation := configured (TRANSLATE_KEY cfg);
    huggingface := configured (HUGGINGFACE_KEY cfg)
  |}
|}.

(** [names.join(', ')]: an [undefined] name is joined as the empty string. *)
Definition joined_names (l : list entity) : jsstring :=
  join (js ", ") (map (fun e => default_to [] (ent_name e)) l).

(** [nlpAnalysis.sentiment?.score || 'neutral'] inside a template *)
Definition score_or_neutral (sn : sentiment) : jsstring :=
  match score sn with
  | Some n => if num_truthy n then num_text n else js "neutral"
  | None => js "neutral"
  end.

Definition askLegalQuestion (this : LegalAIService)
    (question documentContext : option jsstring) : M value :=
  let documentContext := default_to [] documentContext in
  try_catch
    (enhancedContext <-
       (if nlp (availableServices this) && truthy documentContext
        then
          try_catch
            (nlpAnalysis <- _analyzeWithNaturalLanguage
                              (Some (substring0 1000 documentContext)) ;;
             ret (documentContext
                  ++ nl ++ nl ++ js "Key entities: "
                  ++ or_else (joined_names (entities nlpAnalysis)) (js "None detected")
                  ++ nl ++ js "Document sentiment: "
                  ++ score_or_neutral (sentiment_of nlpAnalysis)))
            (fun nlpError => ret documentContext)
        else ret documentContext) ;;
     let prompt := _buildLegalPrompt question enhancedContext in
     response <- _callGemini prompt (js "legal_qa") ;;
     ret (VStr (or_else response (_getFallbackLegalResponse question))))
    (fun error => ret (VStr (_getFallbackLegalResponse question))).

Definition summarizeDocument (this : LegalAIService)
    (documentText summaryType summaryLength : option jsstring) : M value :=
  let summaryType := default_to (js "comprehensive") summaryType in
  let summaryLength := default_to (js "medium") summaryLength in
  try_catch
    (enhancedAnalysis <-
       (if nlp (availableServices this)
        then
          try_catch
            (excerpt <- substring_of documentText 5000 ;;
             nlpResult <- _analyzeWithNaturalLanguage (Some excerpt) ;;
             ret (_formatNLPAnalysis nlpResult))
            (fun nlpError => ret [])
        else ret []) ;;
     prompt <- _buildSummarizationPrompt documentText summaryType summaryLength
                 enhancedAnalysis ;;
     summary <-
       (if huggingface (availableServices this)
        then
          try_catch
            (_summarizeWithHuggingFace documentText summaryType)
            (fun hfError => ret None)
        else ret None) ;;
     summary <-
       (if configured summary
        then ret (default_to [] summary)
        else _callGemini prompt (js "summarization")) ;;
     ret (VStr (or_else summary (_getFallbackSummary summaryType summaryLength))))
    (fun error => ret (VStr (_getFallbackSummary summaryType summaryLength))).

Definition translate_request (q source target : option jsstring) : request := {|
  req_url := TRANSLATE_BASE_URL cfg ++ js "?key=" ++ tpl (TRANSLATE_KEY cfg);
  req_headers := json_headers;
  req_body := VObj [(js "q", of_opt q);
                    (js "source", of_opt source);
                    (js "target", of_opt target);
                    (js "format", VStr (js "text"));
                    (js "model", VStr (js "nmt"))]
|}.

(** [e.type === 'ORGANIZATION' || e.type === 'PERSON'] *)
Definition is_party (e : entity) : bool :=
  match ent_type e with
  | Some t => str_eqb t (js "ORGANIZATION") || str_eqb t (js "PERSON")
  | None => false
  end.

(** The note appended to the text sent for translation. *)
Definition annotation (parties : list entity) : jsstring :=
  nl ++ nl ++ js "[Legal entities: " ++ joined_names parties ++ js "]".

(** [data.data.translations[0].translatedText], which the caller then
    uses as a string: every missing link is a [TypeError]. *)
Definition first_translatedText (data : translate_body) : M jsstring :=
  match body_data data with
  | None => throw (type_error (js "translations"))
  | Some d =>
      match translations d with
      | None => throw (type_error (js "0"))
      | Some [] => throw (type_error (js "translatedText"))
      | Some (first :: _) =>
          match translatedText first with
          | None => throw (type_error (js "replace"))
          | Some t => ret t
          end
      end
  end.

Definition translateText (this : LegalAIService)
    (text sourceLang targetLang : option jsstring) : M value :=
  try_catch
    (if negb (translation (availableServices this))
     then throw (Error (js "Google Translate API not configured"))
     else
       contextualText <-
         (if nlp (availableServices this)
          then
            match text with
            | None => throw (type_error (js "length"))
            | Some t =>
                if 100 <? List.length t
                then
                  try_catch
                    (nlpAnalysis <- _analyzeWithNaturalLanguage text ;;
                     let parties := filter is_party (entities nlpAnalysis) in
                     ret (match parties with
                          | [] => text
                          | _ :: _ => Some (t ++ annotation parties)
                          end))
                    (fun nlpError => ret text)
                else ret text
            end
          else ret text) ;;
       response <- fetching (fetch_translate w) XTranslate
                     (translate_request contextualText sourceLang targetLang) ;;
       if negb (ok (fst response))
       then throw (Error (js "Translation API error: " ++ dec (fst response)))
       else
         data <- json_of (snd response) ;;
         translation <- first_translatedText data ;;
         let translation := remove_annotations translation in
         ret (VStr (trim translation)))
    (fun error => ret (VStr (_getFallbackTranslation text sourceLang targetLang))).

Definition performSemanticSearch (this : LegalAIService)
    (query documentText : option jsstring) : M value :=
  try_catch
    (fromLanguage <-
       (if nlp (availableServices this)
        then
          try_catch
            (nlpResult <- _searchWithNaturalLanguage query documentText ;;
             ret [(js "Google Natural Language", nlpResult)])
            (fun nlpError => ret [])
        else ret []) ;;
     searchPrompt <- _buildSearchPrompt query documentText ;;
     geminiSearchResult <- _callGemini searchPrompt (js "search") ;;
     let fromGemini :=
       if truthy geminiSearchResult
       then [(js "Gemini AI", geminiSearchResult)]
       else [] in
     fromEntities <-
       (if huggingface (availableServices this)
        then
          try_catch
            (entitySearch <- _searchLegalEntities query documentText ;;
             ret (if truthy entitySearch
                  then [(js "Legal Entity Search", entitySearch)]
                  else []))
            (fun hfError => ret [])
        else ret []) ;;
     let searchResults := fromLanguage ++ fromGemini ++ fromEntities in
     ret (VStr (_combineSearchResults searchResults query)))
    (fun error => ret (VStr (_getFallbackSearchResults query))).

Definition comparison_failed : jsstring :=
  js "Document comparison failed. Please check your configuration.".

Definition compareDocuments (this : LegalAIService)
    (doc1Text doc2Text : option jsstring) : M value :=
  try_catch
    (excerpt1 <- substring_of doc1Text 2000 ;;
     excerpt2 <- substring_of doc2Text 2000 ;;
     let prompt :=
       js "As a legal AI expert specializing in Indian law, compare these two documents and provide:
            1. Key differences
            2. Similar clauses
            3. Legal implications of differences
            4. Recommendations

            Document 1:
            "
       ++ excerpt1
       ++ js "...

            Document 2:
            "
       ++ excerpt2
       ++ js "...

            Please provide a detailed comparison analysis:" in
     answer <- _callGemini prompt (js "comparison") ;;
     ret (VStr answer))
    (fun error => ret (VStr comparison_failed)).

Definition sentiment_value (sn : sentiment) : value :=
  VObj [(js "score", match score sn with
                     | Some n => VNum n
                     | None => VUndefined
                     end)].

Definition entity_value (e : entity) : value :=
  VObj [(js "name", of_opt (ent_name e)); (js "type", of_opt (ent_type e))].

(** The record of the [catch] branch of [assessLegalRisk]. *)
Definition risk_failed (error : error) : value :=
  VObj [(js "error", VStr (js "Risk assessment failed"));
        (js "details", VStr (message error))].

Definition assessLegalRisk (this : LegalAIService)
    (documentText : option jsstring) : M value :=
  try_catch
    (assessments <-
       (if nlp (availableServices this)
        then
          try_catch
            (nlpAnalysis <- _analyzeWithNaturalLanguage documentText ;;
             ret [VObj [(js "source", VStr (js "Natural Language Analysis"));
                        (js "sentiment", sentiment_value (sentiment_of nlpAnalysis));
                        (js "entities", VArr (map entity_value (entities nlpAnalysis)))]])
            (fun nlpError => ret [])
        else ret []) ;;
     excerpt <- substring_of documentText 3000 ;;
     let riskPrompt :=
       js "As a legal risk analyst specializing in Indian law, assess the legal risks in this document:

            "
       ++ excerpt
       ++ js "...

            Provide:
            1. Risk level (Low/Medium/High)
            2. Specific risk factors
            3. Legal compliance issues
            4. Mitigation recommendations
            5. Relevant Indian laws/acts

            Assessment:" in
     geminiRiskAssessment <- _callGemini riskPrompt (js "risk_analysis") ;;
     stamp <- timestamp ;;
     ret (VObj [(js "nlpAnalysis", match assessments with
                                   | first :: _ => first
                                   | [] => VNull
                                   end);
                (js "aiAssessment", VStr geminiRiskAssessment);
                (js "timestamp", VStr stamp)]))
    (fun error => ret (risk_failed error)).

(** *** The handler *)

(** [initializeGemini]: builds the client and the model handle, which
    sends nothing upstream. *)
Definition initializeGemini : M unit :=
  fun s =>
    if negb (configured (GEMINI_KEY cfg))
    then (Throw (Error (js "GEMINI_API_KEY environment variable is required")), s)
    else
      (Return tt,
       {| model := Some {| gm_apiKey := default_to [] (GEMINI_KEY cfg);
                           gm_model := GEMINI_MODEL cfg |};
          now := now s;
          exchanges := exchanges s |}).

(** The fields of [req.body] beside [action], each a string or absent. *)
Record Params : Type := mkParams {
  question : option jsstring;
  documentContext : option jsstring;
  documentText : option jsstring;
  summaryType : option jsstring;
  summaryLength : option jsstring;
  text : option jsstring;
  sourceLang : option jsstring;
  targetLang : option jsstring;
  query : option jsstring;
  doc1Text : option jsstring;
  doc2Text : option jsstring
}.

Record Body : Type := mkBody {
  action : option jsstring;
  params : Params
}.

Record Req : Type := mkReq {
  method : jsstring;
  body : option Body                      (* [None]: [req.body] is undefined *)
}.

Record Res : Type := mkRes {
  statusCode : nat;
  headers : list (jsstring * jsstring);
  sent : option value                     (* [None]: [end()] without a body *)
}.

Definition cors_headers : list (jsstring * jsstring) :=
  [(js "Access-Control-Allow-Origin", js "*");
   (js "Access-Control-Allow-Methods", js "GET, POST, PUT, DELETE, OPTIONS");
   (js "Access-Control-Allow-Headers", js "Content-Type, Authorization")].

Definition services_value (sv : Services) : value :=
  VObj [(js "ai", VArr (map VStr (ai sv)));
        (js "nlp", VBool (nlp sv));
        (js "documentAI", VBool (documentAI sv));
        (js "translation", VBool (translation sv));
        (js "huggingface", VBool (huggingface sv))].

(** [case name:] of a [switch], which compares with [===] *)
Definition is_case (a : option jsstring) (name : jsstring) : bool :=
  match a with
  | Some s => str_eqb s name
  | None => false
  end.

(** The [switch (action)] of the handler. *)
Definition dispatch (legalAI : LegalAIService) (a : option jsstring) (p : Params)
  : M value :=
  if is_case a (js "askLegalQuestion") then
    askLegalQuestion legalAI (question p) (documentContext p)
  else if is_case a (js "summarizeDocument") then
    summarizeDocument legalAI (documentText p) (summaryType p) (summaryLength p)
  else if is_case a (js "translateText") then
    translateText legalAI (text p) (sourceLang p) (targetLang p)
  else if is_case a (js "performSemanticSearch") then
    performSemanticSearch legalAI (query p) (documentText p)
  else if is_case a (js "compareDocuments") then
    compareDocuments legalAI (doc1Text p) (doc2Text p)
  else if is_case a (js "assessLegalRisk") then
    assessLegalRisk legalAI (documentText p)
  else if is_case a (js "healthCheck") then
    stamp <- timestamp ;;
    ret (VObj [(js "status", VStr (js "healthy"));
               (js "services", services_value (availableServices legalAI));
               (js "timestamp", VStr stamp)])
  else
    throw (Error (js "Unknown action: " ++ tpl a)).

(** The body of the [try] block of the handler. *)
Definition serve (req : Req) : M value :=
  (fun s => match model s with
            | None => initializeGemini s
            | Some _ => ret tt s
            end) ;;;
  let legalAI := new_LegalAIService in
  match body req with
  | None => throw (type_error (js "action"))
  | Some b => dispatch legalAI (action b) (params b)
  end.

Definition success_envelope (result : value) (stamp : jsstring) : value :=
  VObj [(js "success", VBool true);
        (js "data", result);
        (js "timestamp", VStr stamp)].

Definition failure_envelope (error : error) (stamp : jsstring) : value :=
  VObj [(js "success", VBool false);
        (js "error", VStr (message error));
        (js "timestamp", VStr stamp)].

Definition handler (req : Req) (s : State) : Res * State :=
  if str_eqb (method req) (js "OPTIONS")
  then ({| statusCode := 200; headers := cors_headers; sent := None |}, s)
  else
    match serve req s with
    | (Return result, s') =>
        ({| statusCode := 200;
            headers := cors_headers;
            sent := Some (success_envelope result (toISOString w (now s'))) |}, s')
    | (Throw error, s') =>
        ({| statusCode := 500;
            headers := cors_headers;
            sent := Some (failure_envelope error (toISOString w (now s'))) |}, s')
    end.

End Service.

(** *** Loading the module

    The statements at the top level of the file read the environment
    into [API_CONFIG], declare [model] without a value, build the
    express application and make it listen; none of them looks at
    whether a key is there. *)

Inductive start_result : Type :=
  | Listening (cfg : ApiConfig) (s : State)
  | Crashed (e : error).

Definition startup (env : Env) (boot_time : Z) : start_result :=
  Listening (API_CONFIG env) {| model := None; now := boot_time; exchanges := [] |}.

End Backend.

(* ================================================================== *)
(** ** The dispatcher of the page: [api-integrations.js] *)
(* ================================================================== *)

Module Client.

(** The parsed body of a response of the backend. *)
Record Envelope : Type := mkEnvelope {
  env_success : option bool;              (* [data.success] *)
  env_error : option jsstring;            (* [data.error] *)
  env_data : value                        (* [data.data] *)
}.

(** The network as the page sees it; the first argument counts the
    requests the page has sent before. *)
Record Browser : Type := mkBrowser {
  fetch : nat -> request -> fetch_result Envelope
}.

(** The state threaded through the dispatcher: the requests sent. *)
Definition M (A : Type) : Type := list request -> completion A * list request.

Definition serverless_request (action : jsstring) (params : list (jsstring * value))
  : request := {|
  req_url := js "/api/legal-ai";
  req_headers := [(js "Content-Type", js "application/json")];
  req_body := VObj ((js "action", VStr action) :: params)
|}.

(** [!data.success] *)
Definition unsuccessful (data : Envelope) : bool :=
  match env_success data with
  | Some true => false
  | _ => true
  end.

Section Dispatcher.

Variable browser : Browser.

Definition _callServerless (action : jsstring) (params : list (jsstring * value))
  : M value :=
  fun sent =>
    let rq := serverless_request action params in
    let sent' := sent ++ [rq] in
    match fetch browser (List.length sent) rq with
    | FetchRejected e => (Throw e, sent')
    | Response status json =>
        if negb (ok status)
        then (Throw (Error (js "Serverless AI API error")), sent')
        else
          match json with
          | inl e => (Throw e, sent')
          | inr data =>
              if unsuccessful data
              then (Throw (Error (or_else (default_to [] (env_error data))
                                          (js "Unknown AI error"))), sent')
              else (Return (env_data data), sent')
          end
    end.

Definition askLegalQuestion (question documentContext : option jsstring) : M value :=
  let documentContext := default_to [] documentContext in
  _callServerless (js "askLegalQuestion")
    [(js "question", of_opt question); (js "documentContext", VStr documentContext)].

Definition summarizeDocument (documentText summaryType summaryLength : option jsstring)
  : M value :=
  let summaryType := default_to (js "comprehensive") summaryType in
  let summaryLength := default_to (js "medium") summaryLength in
  _callServerless (js "summarizeDocument")
    [(js "documentText", of_opt documentText);
     (js "summaryType", VStr summaryType);
     (js "summaryLength", VStr summaryLength)].

Definition translateText (text sourceLang targetLang : option jsstring) : M value :=
  _callServerless (js "translateText")
    [(js "text", of_opt text);
     (js "sourceLang", of_opt sourceLang);
     (js "targetLang", of_opt targetLang)].

Definition performSemanticSearch (query documentText : option jsstring) : M value :=
  _callServerless (js "performSemanticSearch")
    [(js "query", of_opt query); (js "documentText", of_opt documentText)].

Definition compareDocuments (doc1Text doc2Text : option jsstring) : M value :=
  _callServerless (js "compareDocuments")
    [(js "doc1Text", of_opt doc1Text); (js "doc2Text", of_opt doc2Text)].

Definition assessLegalRisk (documentText : option jsstring) : M value :=
  _callServerless (js "assessLegalRisk") [(js "documentText", of_opt documentText)].

End Dispatcher.

End Client.

(* ================================================================== *)
(** ** Upload staging: [main.js] *)
(* ================================================================== *)

Module Upload.

(** A [File] of the browser, at the properties the page reads. *)
Record File : Type := mkFile {
  file_name : jsstring;
  file_size : N;                          (* bytes *)
  file_type : jsstring
}.

(** [(num / den).toFixed(1)] for [den] a power of two, which makes the
    quotient exact: the tenths are rounded to nearest, a tie upwards. *)
Definition toFixed1 (num den : N) : jsstring :=
  let tenths := ((20 * num + den) / (2 * den))%N in
  dec_N (tenths / 10) ++ js "." ++ dec_N (tenths mod 10).

Definition formatFileSize (bytes : N) : jsstring :=
  if (bytes <? 1024)%N then dec_N bytes ++ js " B"
  else if (bytes <? 1024 * 1024)%N then toFixed1 bytes 1024 ++ js " KB"
  else toFixed1 bytes (1024 * 1024) ++ js " MB".

(** The ceiling of [handleFileUpload], [50 * 1024 * 1024] bytes. *)
Definition size_limit : N := (50 * 1024 * 1024)%N.

Section Page.

(** An identifier is [Date.now() + Math.random()]; [draw n] is the value
    of that sum the [n]-th time the page computes it. *)
Variable Id : Type.
Variable draw : nat -> Id.

Record FileItem : Type := mkFileItem {
  name : jsstring;
  size : jsstring;
  type : jsstring;
  file : File;
  id : Id
}.

Record Page : Type := mkPage {
  uploadedFiles : list FileItem;          (* the global of that name *)
  alerts : list jsstring;                 (* what [alert] has shown, oldest first *)
  file_list : list FileItem;              (* the children of #file-list, by item *)
  viewer_document : list (option Id * jsstring);   (* options of the selector *)
  progress_shown : bool;                  (* #progress-container displayed *)
  intervals : nat;                        (* timers started by simulateProcessing *)
  drawn : nat                             (* identifiers computed so far *)
}.

Definition alert (msg : jsstring) (p : Page) : Page :=
  {| uploadedFiles := uploadedFiles p; alerts := alerts p ++ [msg];
     file_list := file_list p; viewer_document := viewer_document p;
     progress_shown := progress_shown p; intervals := intervals p;
     drawn := drawn p |}.

Definition addFileToList (fileItem : FileItem) (p : Page) : Page :=
  {| uploadedFiles := uploadedFiles p; alerts := alerts p;
     file_list := file_list p ++ [fileItem];
     viewer_document := viewer_document p;
     progress_shown := progress_shown p; intervals := intervals p;
     drawn := drawn p |}.

Definition updateDocumentSelector (p : Page) : Page :=
  {| uploadedFiles := uploadedFiles p; alerts := alerts p;
     file_list := file_list p;
     viewer_document :=
       (None, js "Select a document to view...")
       :: map (fun f => (Some (id f), name f)) (uploadedFiles p);
     progress_shown := progress_shown p; intervals := intervals p;
     drawn := drawn p |}.

(** [simulateProcessing] starts one interval; what the timer does later
    touches the progress bar only. *)
Definition simulateProcessing (p : Page) : Page :=
  {| uploadedFiles := uploadedFiles p; alerts := alerts p;
     file_list := file_list p; viewer_document := viewer_document p;
     progress_shown := progress_shown p; intervals := S (intervals p);
     drawn := drawn p |}.

Definition fileItem_of (f : File) (n : nat) : FileItem :=
  {| name := file_name f;
     size := formatFileSize (file_size f);
     type := file_type f;
     file := f;
     id := draw n |}.

(** The body of [files.forEach(file => ...)]. *)
Definition stage (p : Page) (f : File) : Page :=
  if (size_limit <? file_size f)%N
  then alert (js "File " ++ file_name f ++ js " exceeds 50MB limit") p
  else
    let fileItem := fileItem_of f (drawn p) in
    let pushed :=
      {| uploadedFiles := uploadedFiles p ++ [fileItem]; alerts := alerts p;
         file_list := file_list p; viewer_document := viewer_document p;
         progress_shown := progress_shown p; intervals := intervals p;
         drawn := S (drawn p) |} in
    updateDocumentSelector (addFileToList fileItem pushed).

(** [handleFileUpload(event)], with [files] for [event.target.files]. *)
Definition handleFileUpload (files : list File) (p : Page) : Page :=
  let staged := fold_left stage files p in
  match files with
  | [] => staged
  | _ :: _ =>
      simulateProcessing
        {| uploadedFiles := uploadedFiles staged; alerts := alerts staged;
           file_list := file_list staged;
           viewer_document := viewer_document staged;
           progress_shown := true; intervals := intervals staged;
           drawn := drawn staged |}
  end.

End Page.

Arguments name {Id} _.
Arguments size {Id} _.
Arguments type {Id} _.
Arguments file {Id} _.
Arguments id {Id} _.
Arguments uploadedFiles {Id} _.
Arguments alerts {Id} _.
Arguments file_list {Id} _.
Arguments viewer_document {Id} _.
Arguments progress_shown {Id} _.
Arguments intervals {Id} _.
Arguments drawn {Id} _.

End Upload.

(* ================================================================== *)
(** * Properties *)
(* ================================================================== *)

(** ** Upload staging *)

Module UploadFacts.
Import Upload.

Definition File_eq_dec : forall a b : File, {a = b} + {a <> b}.
Proof.
  decide equality; solve [apply str_eq_dec | apply N.eq_dec].
Defined.

(** A file above the ceiling. *)
Definition oversized (f : File) : bool := (size_limit <? file_size f)%N.

Definition limit_message (f : File) : jsstring :=
  js "File " ++ file_name f ++ js " exceeds 50MB limit".

Section Staging.

Variable Id : Type.
Variable draw : nat -> Id.

(** An item of the staged list describes the file it holds. *)
Definition describes (item : FileItem Id) : Prop :=
  name item = file_name (file item)
  /\ size item = formatFileSize (file_size (file item))
  /\ type item = file_type (file item).

Lemma stage_oversized (p : Page Id) (f : File) :
  oversized f = true ->
  uploadedFiles (stage Id draw p f) = uploadedFiles p
  /\ alerts (stage Id draw p f) = alerts p ++ [limit_message f]
  /\ drawn (stage Id draw p f) = drawn p.
Proof.
  unfold oversized, stage. intros ->. cbn. repeat split.
Qed.

Lemma stage_accepted (p : Page Id) (f : File) :
  oversized f = false ->
  uploadedFiles (stage Id draw p f) = uploadedFiles p ++ [fileItem_of Id draw f (drawn p)]
  /\ alerts (stage Id draw p f) = alerts p
  /\ drawn (stage Id draw p f) = S (drawn p).
Proof.
  unfold oversized, stage. intros ->. cbn. repeat split.
Qed.

(** The loop over the files of an event: the items it adds hold the
    files within the ceiling, in order; the alerts it raises name the
    oversized ones, in order. *)
Lemma fold_stage_files (files : list File) (p : Page Id) :
  exists staged,
    uploadedFiles (fold_left (stage Id draw) files p) = uploadedFiles p ++ staged
    /\ map file staged = filter (fun f => negb (oversized f)) files
    /\ Forall describes staged
    /\ alerts (fold_left (stage Id draw) files p)
       = alerts p ++ map limit_message (filter oversized files).
Proof.
  revert p. induction files as [| f files IH]; intro p; cbn [fold_left filter map].
  - exists []. rewrite !app_nil_r. repeat split. constructor.
  - destruct (IH (stage Id draw p f)) as (staged & IHu & IHf & IHd & IHa).
    rewrite IHu, IHa.
    destruct (oversized f) eqn:Hf; cbn [negb map].
    + destruct (stage_oversized p f Hf) as (-> & -> & _).
      exists staged. repeat split; try assumption. now rewrite <- app_assoc.
    + destruct (stage_accepted p f Hf) as (-> & -> & _).
      exists (fileItem_of Id draw f (drawn p) :: staged).
      split; [now rewrite <- app_assoc |].
      split; [cbn [map]; now rewrite IHf |].
      split; [| reflexivity].
      constructor; [repeat split | assumption].
Qed.

Lemma handleFileUpload_lists (files : list File) (p : Page Id) :
  uploadedFiles (handleFileUpload Id draw files p)
  = uploadedFiles (fold_left (stage Id draw) files p)
  /\ alerts (handleFileUpload Id draw files p)
     = alerts (fold_left (stage Id draw) files p).
Proof.
  unfold handleFileUpload. destruct files; split; reflexivity.
Qed.

(** A file occurs among the accepted files of a batch as often as in
    the batch, and not at all when it is oversized. *)
Lemma count_accepted (files : list File) (f : File) :
  count_occ File_eq_dec (filter (fun g => negb (oversized g)) files) f
  = if oversized f then 0 else count_occ File_eq_dec files f.
Proof.
  induction files as [| g files IH]; cbn [filter count_occ].
  - now destruct (oversized f).
  - destruct (oversized g) eqn:Hg; cbn [negb count_occ];
      destruct (File_eq_dec g f) as [-> | Hne]; rewrite IH.
    + now rewrite Hg.
    + reflexivity.
    + now rewrite Hg.
    + reflexivity.
Qed.

(** C8.  An upload event with any number of files leaves what was
    staged before in place and appends one item for each of its files
    within the ceiling of 50MB, in order, each item describing its
    file.  So a file above the ceiling is not added at all, and a file
    within it is added once for each time it occurs in the event.  The
    alerts raised are those naming the oversized files, in order. *)
Theorem upload_ceiling (p : Page Id) (files : list File) :
  exists staged,
    uploadedFiles (handleFileUpload Id draw files p) = uploadedFiles p ++ staged
    /\ map file staged = filter (fun f => negb (size_limit <? file_size f)%N) files
    /\ Forall describes staged
    /\ (forall f,
          count_occ File_eq_dec (map file staged) f
          = if (size_limit <? file_size f)%N then 0
            else count_occ File_eq_dec files f)
    /\ alerts (handleFileUpload Id draw files p)
       = alerts p
         ++ map limit_message (filter (fun f => (size_limit <? file_size f)%N) files).
Proof.
  destruct (handleFileUpload_lists files p) as [-> ->].
  destruct (fold_stage_files files p) as (staged & Hu & Hf & Hd & Ha).
  exists staged. repeat split; try assumption.
  intro f. rewrite Hf. apply count_accepted.
Qed.

(** *** What the page shows *)

Definition placeholder : jsstring := js "Select a document to view...".

(** The options of the selector for a staged list. *)
Definition options_for (items : list (FileItem Id)) : list (option Id * jsstring) :=
  (None, placeholder) :: map (fun f => (Some (id f), name f)) items.

Lemma fold_stage_views (files : list File) (p : Page Id) :
  exists staged,
    uploadedFiles (fold_left (stage Id draw) files p) = uploadedFiles p ++ staged
    /\ file_list (fold_left (stage Id draw) files p) = file_list p ++ staged
    /\ map id staged = map draw (seq (drawn p) (List.length staged))
    /\ drawn (fold_left (stage Id draw) files p) = drawn p + List.length staged
    /\ viewer_document (fold_left (stage Id draw) files p)
       = match staged with
         | [] => viewer_document p
         | _ :: _ => options_for (uploadedFiles p ++ staged)
         end
    /\ progress_shown (fold_left (stage Id draw) files p) = progress_shown p
    /\ intervals (fold_left (stage Id draw) files p) = intervals p.
Proof.
  revert p. induction files as [| f files IH]; intro p; cbn [fold_left].
  - exists []. rewrite !app_nil_r, Nat.add_0_r. repeat split.
  - destruct (IH (stage Id draw p f)) as (staged & Hu & Hl & Hi & Hd & Hv & Hp & Ht).
    rewrite Hu, Hl, Hd, Hv, Hp, Ht. clear Hu Hl Hd Hv Hp Ht.
    unfold stage in *. destruct (size_limit <? file_size f)%N.
    + exists staged. cbn in *. repeat split; assumption.
    + exists (fileItem_of Id draw f (drawn p) :: staged). cbn in *.
      rewrite <- !app_assoc. cbn [app].
      split; [reflexivity |]. split; [reflexivity |].
      split; [now rewrite Hi |]. split; [lia |].
      split; [| split; reflexivity].
      destruct staged; [| reflexivity]. unfold options_for.
      rewrite ?app_nil_r. reflexivity.
Qed.

(** The list shown on the page gains the items the staged list
    gains, each with an identifier of its own draw; the selector is
    rebuilt from the whole staged list whenever an item is added, and
    is left alone otherwise. *)
Theorem page_follows_staging (p : Page Id) (files : list File) :
  exists staged,
    uploadedFiles (handleFileUpload Id draw files p) = uploadedFiles p ++ staged
    /\ file_list (handleFileUpload Id draw files p) = file_list p ++ staged
    /\ map id staged = map draw (seq (drawn p) (List.length staged))
    /\ drawn (handleFileUpload Id draw files p) = drawn p + List.length staged
    /\ viewer_document (handleFileUpload Id draw files p)
       = match staged with
         | [] => viewer_document p
         | _ :: _ => options_for (uploadedFiles (handleFileUpload Id draw files p))
         end.
Proof.
  destruct (fold_stage_views files p) as (staged & Hu & Hl & Hi & Hd & Hv & _).
  exists staged.
  assert (E : uploadedFiles (handleFileUpload Id draw files p)
              = uploadedFiles (fold_left (stage Id draw) files p)
              /\ file_list (handleFileUpload Id draw files p)
                 = file_list (fold_left (stage Id draw) files p)
              /\ drawn (handleFileUpload Id draw files p)
                 = drawn (fold_left (stage Id draw) files p)
              /\ viewer_document (handleFileUpload Id draw files p)
                 = viewer_document (fold_left (stage Id draw) files p)).
  { unfold handleFileUpload. destruct files; repeat split. }
  destruct E as (-> & -> & -> & ->). rewrite Hu, Hl, Hd, Hv. repeat split; assumption.
Qed.

(** An event without files changes nothing.  Any other event shows the
    progress bar and starts one run of the simulated processing, also
    when every file of it was turned down. *)
Theorem progress_on_any_file (p : Page Id) (files : list File) :
  (files = [] -> handleFileUpload Id draw files p = p)
  /\ (files <> [] ->
      progress_shown (handleFileUpload Id draw files p) = true
      /\ intervals (handleFileUpload Id draw files p) = S (intervals p)).
Proof.
  split.
  - intros ->. reflexivity.
  - intro Hne. destruct files as [| f files]; [congruence |].
    unfold handleFileUpload. cbn [progress_shown intervals simulateProcessing].
    split; [reflexivity |].
    destruct (fold_stage_views (f :: files) p) as (staged & _ & _ & _ & _ & _ & _ & Ht).
    now rewrite Ht.
Qed.

End Staging.

Definition empty_page : Page nat := mkPage nat [] [] [] [] false 0 0.
Definition big_file : File := mkFile (js "big.pdf") 52428801 (js "application/pdf").
Definition small_file : File := mkFile (js "note.txt") 1024 (js "text/plain").

(** The two files of the specification, dropped together. *)
Lemma upload_ceiling_witness :
  exists staged,
    uploadedFiles (handleFileUpload nat (fun n => n) [big_file; small_file] empty_page)
    = uploadedFiles empty_page ++ staged
    /\ map file staged = [small_file]
    /\ Forall (describes nat) staged
    /\ (forall f,
          count_occ File_eq_dec (map file staged) f
          = if (size_limit <? file_size f)%N then 0
            else count_occ File_eq_dec [big_file; small_file] f)
    /\ alerts (handleFileUpload nat (fun n => n) [big_file; small_file] empty_page)
       = [js "File big.pdf exceeds 50MB limit"].
Proof.
  exact (upload_ceiling nat (fun n => n) empty_page [big_file; small_file]).
Defined.

Lemma progress_on_any_file_witness :
  handleFileUpload nat (fun n => n) [] empty_page = empty_page
  /\ (progress_shown (handleFileUpload nat (fun n => n) [big_file] empty_page) = true
      /\ intervals (handleFileUpload nat (fun n => n) [big_file] empty_page)
         = S (intervals empty_page)).
Proof.
  split.
  - apply (proj1 (progress_on_any_file nat (fun n => n) empty_page [])). reflexivity.
  - apply (proj2 (progress_on_any_file nat (fun n => n) empty_page [big_file])).
    discriminate.
Defined.

End UploadFacts.

(** ** The dispatcher of the page *)

Module ClientFacts.
Import Client.

(** A network whose every response has the status [status] and the
    body [json]. *)
Definition answering (status : nat) (json : error + Envelope) : Browser :=
  {| fetch := fun _ _ => Response status json |}.

Definition unknown_action_envelope : Envelope :=
  {| env_success := Some false;
     env_error := Some (js "Unknown action: doTheThing");
     env_data := VUndefined |}.

(** What the dispatcher throws for an unsuccessful envelope:
    [data.error || 'Unknown AI error']. *)
Definition reported (data : Envelope) : jsstring :=
  match env_error data with
  | Some m => if truthy m then m else js "Unknown AI error"
  | None => js "Unknown AI error"
  end.

(** One request leaves the page per call, whatever comes back. *)
Lemma callServerless_sends_one (browser : Browser) (action : jsstring)
    (params : list (jsstring * value)) (sent : list request) :
  snd (_callServerless browser action params sent)
  = sent ++ [serverless_request action params].
Proof.
  unfold _callServerless.
  destruct (fetch browser _ _) as [e | status [e | data]]; cbn [snd];
    try reflexivity;
    destruct (negb (ok status)); cbn [snd]; try reflexivity.
  destruct (unsuccessful data); reflexivity.
Qed.

(** C5, as the code has it.  A response outside 2xx makes the dispatcher
    throw an error whose message is the fixed text
    'Serverless AI API error'; a 2xx response whose envelope is not
    successful makes it throw the error text of the envelope, or
    'Unknown AI error' when the envelope has none; a successful envelope
    is unwrapped to its [data]. *)
Theorem dispatcher_outcomes (browser : Browser) (action : jsstring)
    (params : list (jsstring * value)) (sent : list request) :
  (forall status json,
      fetch browser (List.length sent) (serverless_request action params)
      = Response status json ->
      ok status = false ->
      fst (_callServerless browser action params sent)
      = Throw (Error (js "Serverless AI API error")))
  /\
  (forall status data,
      fetch browser (List.length sent) (serverless_request action params)
      = Response status (inr data) ->
      ok status = true ->
      env_success data <> Some true ->
      fst (_callServerless browser action params sent)
      = Throw (Error (reported data)))
  /\
  (forall status data,
      fetch browser (List.length sent) (serverless_request action params)
      = Response status (inr data) ->
      ok status = true ->
      env_success data = Some true ->
      fst (_callServerless browser action params sent) = Return (env_data data)).
Proof.
  unfold _callServerless. split; [| split].
  - intros status json -> Hok. rewrite Hok. reflexivity.
  - intros status data -> Hok Hs. rewrite Hok. cbn [negb].
    assert (Hu : unsuccessful data = true).
    { unfold unsuccessful. destruct (env_success data) as [[|]|]; congruence. }
    rewrite Hu. unfold reported, or_else, default_to.
    destruct (env_error data) as [m|]; [destruct (truthy m) |]; reflexivity.
  - intros status data -> Hok Hs. rewrite Hok. cbn [negb].
    unfold unsuccessful. rewrite Hs. reflexivity.
Qed.

Lemma dispatcher_outcomes_witness :
  fst (_callServerless (answering 500 (inr unknown_action_envelope))
         (js "doTheThing") [] [])
  = Throw (Error (js "Serverless AI API error"))
  /\ fst (_callServerless (answering 200 (inr unknown_action_envelope))
            (js "doTheThing") [] [])
     = Throw (Error (js "Unknown action: doTheThing"))
  /\ fst (_callServerless
            (answering 200 (inr (mkEnvelope (Some true) None (VStr (js "answer")))))
            (js "askLegalQuestion") [] [])
     = Return (VStr (js "answer")).
Proof.
  split; [| split].
  - apply (proj1 (dispatcher_outcomes (answering 500 (inr unknown_action_envelope))
                    (js "doTheThing") [] []) 500 (inr unknown_action_envelope));
      reflexivity.
  - apply (proj1 (proj2 (dispatcher_outcomes
                           (answering 200 (inr unknown_action_envelope))
                           (js "doTheThing") [] [])) 200 unknown_action_envelope);
      [reflexivity | reflexivity | discriminate].
  - apply (proj2 (proj2 (dispatcher_outcomes
                           (answering 200 (inr (mkEnvelope (Some true) None
                                                  (VStr (js "answer")))))
                           (js "askLegalQuestion") [] [])) 200
             (mkEnvelope (Some true) None (VStr (js "answer"))));
      reflexivity.
Defined.

(** C5 as stated fails in its first part: the error thrown for a
    response outside 2xx is the same for the statuses 404 and 500, and
    its message holds neither number. *)
Lemma dispatcher_drops_status :
  fst (_callServerless (answering 404 (inr unknown_action_envelope))
         (js "doTheThing") [] [])
  = fst (_callServerless (answering 500 (inr unknown_action_envelope))
           (js "doTheThing") [] [])
  /\ (exists e,
        fst (_callServerless (answering 500 (inr unknown_action_envelope))
               (js "doTheThing") [] []) = Throw e
        /\ includes (js "500") (message e) = false
        /\ includes (js "404") (message e) = false).
Proof.
  split; [reflexivity |].
  exists (Error (js "Serverless AI API error")). repeat split; reflexivity.
Qed.

(** No reading of the thrown error recovers the status of the response. *)
Lemma status_not_recoverable :
  ~ exists status_of : error -> nat,
      forall browser action params sent status json,
        fetch browser (List.length sent) (serverless_request action params)
        = Response status json ->
        ok status = false ->
        exists e, fst (_callServerless browser action params sent) = Throw e
                  /\ status_of e = status.
Proof.
  intros [status_of H].
  destruct (H (answering 404 (inl (Error []))) [] [] [] 404 (inl (Error [])))
    as (e1 & H1 & S1); [reflexivity | reflexivity |].
  destruct (H (answering 500 (inl (Error []))) [] [] [] 500 (inl (Error [])))
    as (e2 & H2 & S2); [reflexivity | reflexivity |].
  cbn in H1, H2. injection H1 as <-. injection H2 as <-.
  rewrite S1 in S2. discriminate.
Qed.

End ClientFacts.

(** ** Strings: searching, trimming and the annotation pattern *)

Module StringFacts.

Example remove_annotations_sample :
  remove_annotations (js "Bonjour [Legal entities: Acme Corp] monde")
  = js "Bonjour  monde".
Proof. reflexivity. Qed.

Example trim_sample : trim (js "  a b  ") = js "a b".
Proof. reflexivity. Qed.

Example dec_sample : dec 503 = js "503".
Proof. reflexivity. Qed.

Definition phrase : jsstring := js "Legal entities:".
Definition open_bracket : N := 91%N.

(** The units [.*?] may run over before the closing bracket. *)
Definition inside (c : N) : Prop :=
  c <> close_bracket /\ is_line_terminator c = false.

Lemma annotation_head_phrase : annotation_head = open_bracket :: phrase.
Proof. reflexivity. Qed.

Lemma phrase_no_bracket : ~ In open_bracket phrase.
Proof.
  unfold phrase, js, open_bracket. cbn.
  intro H. repeat (destruct H as [H | H]; [discriminate H |]). exact H.
Qed.

(** *** Prefixes and occurrences *)

Lemma strip_prefix_app (p r : jsstring) : strip_prefix p (p ++ r) = Some r.
Proof.
  induction p as [| c p IH]; cbn; [reflexivity |]. now rewrite N.eqb_refl.
Qed.

Lemma strip_prefix_inv (p s r : jsstring) :
  strip_prefix p s = Some r -> s = p ++ r.
Proof.
  revert s. induction p as [| c p IH]; intros s H; cbn in H.
  - now injection H as ->.
  - destruct s as [| d s]; [discriminate |].
    destruct (N.eqb_spec c d) as [-> |]; [| discriminate].
    cbn. f_equal. now apply IH.
Qed.

Lemma includes_intro (needle a b : jsstring) :
  includes needle (a ++ needle ++ b) = true.
Proof.
  induction a as [| c a IH].
  - cbn [app]. destruct (needle ++ b) eqn:E; cbn [includes];
      unfold starts_with; rewrite <- E, strip_prefix_app; reflexivity.
  - cbn [app includes]. rewrite IH. apply orb_true_r.
Qed.

Lemma includes_inv (needle hay : jsstring) :
  includes needle hay = true -> exists a b, hay = a ++ needle ++ b.
Proof.
  induction hay as [| c hay IH]; cbn [includes]; intro H.
  - rewrite orb_false_r in H. unfold starts_with in H.
    destruct (strip_prefix needle []) as [r |] eqn:E; [| discriminate].
    exists [], r. exact (strip_prefix_inv _ _ _ E).
  - apply orb_true_iff in H. destruct H as [H | H].
    + unfold starts_with in H.
      destruct (strip_prefix needle (c :: hay)) as [r |] eqn:E; [| discriminate].
      exists [], r. exact (strip_prefix_inv _ _ _ E).
    + destruct (IH H) as (a & b & ->). now exists (c :: a), b.
Qed.

(** A part of a string without the needle has none either. *)
Lemma includes_part (needle l s r : jsstring) :
  includes needle (l ++ s ++ r) = false -> includes needle s = false.
Proof.
  intro H. destruct (includes needle s) eqn:E; [| reflexivity].
  destruct (includes_inv _ _ E) as (a & b & ->).
  rewrite <- H. symmetry.
  replace (l ++ (a ++ needle ++ b) ++ r) with ((l ++ a) ++ needle ++ (b ++ r))
    by (now rewrite <- !app_assoc).
  apply includes_intro.
Qed.

Lemma includes_left (needle s r : jsstring) :
  includes needle (s ++ r) = false -> includes needle s = false.
Proof. intro H. apply (includes_part needle [] s r). exact H. Qed.

Lemma includes_right (needle l s : jsstring) :
  includes needle (l ++ s) = false -> includes needle s = false.
Proof.
  intro H. apply (includes_part needle l s []). now rewrite app_nil_r.
Qed.

(** *** Trimming keeps a part of the string *)

Lemma trim_start_part (s : jsstring) : exists l, s = l ++ trim_start s.
Proof.
  induction s as [| c s [l IH]]; [now exists [] |].
  cbn [trim_start]. destruct (trimmable c).
  - exists (c :: l). cbn. now f_equal.
  - now exists [].
Qed.

Lemma trim_end_part (s : jsstring) : exists r, s = trim_end s ++ r.
Proof.
  unfold trim_end. destruct (trim_start_part (rev s)) as [l H].
  exists (rev l). rewrite <- rev_app_distr, <- H. now rewrite rev_involutive.
Qed.

Lemma trim_part (s : jsstring) : exists l r, s = l ++ trim s ++ r.
Proof.
  unfold trim. destruct (trim_start_part s) as [l Hl].
  destruct (trim_end_part (trim_start s)) as [r Hr].
  exists l, r. now rewrite <- Hr.
Qed.

Lemma trim_keeps_absent (needle s : jsstring) :
  includes needle s = false -> includes needle (trim s) = false.
Proof.
  intro H. destruct (trim_part s) as (l & r & E).
  apply (includes_part needle l (trim s) r). now rewrite <- E.
Qed.

(** *** The pattern *)

Lemma lazy_dots_bracket_run (b u : jsstring) :
  Forall inside b ->
  lazy_dots_bracket (b ++ close_bracket :: u) = Some (S (List.length b)).
Proof.
  induction 1 as [| c b [Hc Hl] _ IH]; cbn [app lazy_dots_bracket List.length].
  - now rewrite N.eqb_refl.
  - destruct (N.eqb_spec c close_bracket) as [E | _]; [contradiction |].
    rewrite Hl, IH. reflexivity.
Qed.

Lemma match_annotation_run (b u : jsstring) :
  Forall inside b ->
  match_annotation (annotation_head ++ b ++ close_bracket :: u)
  = Some (List.length annotation_head + S (List.length b)).
Proof.
  intro H. unfold match_annotation.
  rewrite strip_prefix_app, (lazy_dots_bracket_run b u H). reflexivity.
Qed.

(** Dropping the units of a match. *)
Lemma replace_from_skip (a r : jsstring) :
  replace_from (List.length a) (a ++ r) = replace_from 0 r.
Proof.
  induction a as [| c a IH]; [reflexivity |]. cbn [List.length app replace_from].
  exact IH.
Qed.

(** Where the phrase does not start, the pattern does not match, even
    if a bracket follows. *)
Lemma strip_prefix_before_bracket (p t r : jsstring) :
  ~ In open_bracket p ->
  strip_prefix p t = None ->
  strip_prefix p (t ++ open_bracket :: r) = None.
Proof.
  revert t. induction p as [| c p IH]; intros t Hp H; cbn in H; [discriminate |].
  destruct t as [| d t]; cbn [app strip_prefix].
  - destruct (N.eqb_spec c open_bracket) as [-> | _]; [| reflexivity].
    exfalso. apply Hp. now left.
  - destruct (N.eqb c d); [| reflexivity].
    apply IH; [| exact H]. intro Hin. apply Hp. now right.
Qed.

Lemma no_phrase_no_start (c : N) (t : jsstring) :
  includes phrase (c :: t) = false -> strip_prefix phrase t = None.
Proof.
  cbn [includes]. intro H. apply orb_false_iff in H. destruct H as [_ H].
  destruct t as [| d t]; cbn [includes] in H.
  - reflexivity.
  - apply orb_false_iff in H. destruct H as [H _]. unfold starts_with in H.
    destruct (strip_prefix phrase (d :: t)); [discriminate | reflexivity].
Qed.

Lemma no_match_before (c : N) (t r : jsstring) :
  includes phrase (c :: t) = false ->
  match_annotation ((c :: t) ++ open_bracket :: r) = None.
Proof.
  intro H. unfold match_annotation. rewrite annotation_head_phrase.
  cbn [app strip_prefix]. destruct (N.eqb open_bracket c); [| reflexivity].
  rewrite (strip_prefix_before_bracket phrase t r phrase_no_bracket
             (no_phrase_no_start c t H)).
  reflexivity.
Qed.

Lemma no_match_without_phrase (c : N) (t : jsstring) :
  includes phrase (c :: t) = false -> match_annotation (c :: t) = None.
Proof.
  intro H. unfold match_annotation. rewrite annotation_head_phrase.
  cbn [strip_prefix]. destruct (N.eqb open_bracket c); [| reflexivity].
  now rewrite (no_phrase_no_start c t H).
Qed.

Lemma includes_tail (needle : jsstring) (c : N) (t : jsstring) :
  includes needle (c :: t) = false -> includes needle t = false.
Proof. cbn [includes]. intro H. now apply orb_false_iff in H. Qed.

(** A text without the phrase is left as it is. *)
Lemma remove_annotations_without_phrase (u : jsstring) :
  includes phrase u = false -> remove_annotations u = u.
Proof.
  unfold remove_annotations. induction u as [| c u IH]; intro H; [reflexivity |].
  cbn [replace_from]. rewrite (no_match_without_phrase c u H).
  f_equal. apply IH. exact (includes_tail _ _ _ H).
Qed.

(** The two steps of the replacement at a position. *)
Lemma replace_from_match (c : N) (s : jsstring) (k : nat) :
  match_annotation (c :: s) = Some (S k) ->
  replace_from 0 (c :: s) = replace_from k s.
Proof. intro H. cbn [replace_from]. now rewrite H. Qed.

Lemma replace_from_no_match (c : N) (s : jsstring) :
  match_annotation (c :: s) = None ->
  replace_from 0 (c :: s) = c :: replace_from 0 s.
Proof. intro H. cbn [replace_from]. now rewrite H. Qed.

(** One annotation on one line, in a text that has the phrase nowhere
    else, is removed and nothing else is. *)
Lemma remove_annotations_one (t b u : jsstring) :
  Forall inside b ->
  includes phrase t = false ->
  includes phrase u = false ->
  remove_annotations (t ++ annotation_head ++ b ++ close_bracket :: u) = t ++ u.
Proof.
  intros Hb Ht Hu. unfold remove_annotations.
  pose proof (match_annotation_run b u Hb) as Hm.
  rewrite annotation_head_phrase in *.
  set (rest := phrase ++ b ++ close_bracket :: u) in *.
  change ((open_bracket :: phrase) ++ b ++ close_bracket :: u)
    with (open_bracket :: rest) in *.
  induction t as [| c t IH].
  - change ([] ++ open_bracket :: rest) with (open_bracket :: rest).
    rewrite (replace_from_match open_bracket rest
               (List.length phrase + S (List.length b))) by exact Hm.
    unfold rest.
    replace (phrase ++ b ++ close_bracket :: u)
      with ((phrase ++ b ++ [close_bracket]) ++ u)
      by (now rewrite <- !app_assoc).
    replace (List.length phrase + S (List.length b))
      with (List.length (phrase ++ b ++ [close_bracket]))
      by (rewrite !length_app; cbn [List.length]; lia).
    rewrite replace_from_skip. exact (remove_annotations_without_phrase u Hu).
  - change ((c :: t) ++ open_bracket :: rest)
      with (c :: (t ++ open_bracket :: rest)).
    rewrite replace_from_no_match.
    + change ((c :: t) ++ u) with (c :: (t ++ u)). f_equal.
      apply IH. exact (includes_tail _ _ _ Ht).
    + exact (no_match_before c t rest Ht).
Qed.

End StringFacts.

(** ** The backend *)

Module BackendFacts.
Import Backend.
Local Open Scope js_scope.

(** *** Traces *)

(** The exchanges made between two states of one process. *)
Definition made (before after : State) : list exchange :=
  skipn (List.length (exchanges before)) (exchanges after).

(** [after] is [before] with the exchanges [tr] added; the model handle
    is the same. *)
Definition extends (before after : State) (tr : list exchange) : Prop :=
  model after = model before /\ exchanges after = exchanges before ++ tr.

(** The call an operation depends on for its answer: the generative
    model, or the translation service for [translateText]. *)
Definition is_primary (x : exchange) : bool :=
  match x with
  | XGenerate _ _ => true
  | XTranslate _ _ => true
  | XLanguage _ _ => false
  | XHuggingFace _ _ => false
  end.

(** The error a primary call threw, if it did. *)
Definition upstream_failure (x : exchange) : option error :=
  match x with
  | XGenerate _ (inl e) => Some e
  | XTranslate _ (FetchRejected e) => Some e
  | _ => None
  end.

Definition secondary (tr : list exchange) : Prop :=
  Forall (fun x => is_primary x = false) tr.

Lemma made_extends (s s' : State) (tr : list exchange) :
  extends s s' tr -> made s s' = tr.
Proof.
  intros [_ H]. unfold made. rewrite H.
  rewrite skipn_app, skipn_all, Nat.sub_diag. reflexivity.
Qed.

Lemma extends_refl (s : State) : extends s s [].
Proof. split; [reflexivity | now rewrite app_nil_r]. Qed.

Lemma extends_trans (s1 s2 s3 : State) (t1 t2 : list exchange) :
  extends s1 s2 t1 -> extends s2 s3 t2 -> extends s1 s3 (t1 ++ t2).
Proof.
  intros [M1 E1] [M2 E2]. split; [congruence |].
  rewrite E2, E1. now rewrite app_assoc.
Qed.

Lemma extends_record (w : World) (s : State) (x : exchange) :
  extends s (record_exchange w x s) [x].
Proof. split; reflexivity. Qed.

Lemma extends_then_record (w : World) (s s' : State) (tr : list exchange) (x : exchange) :
  extends s s' tr -> extends s (record_exchange w x s') (tr ++ [x]).
Proof. intro H. eapply extends_trans; [exact H | apply extends_record]. Qed.

Lemma secondary_nil : secondary [].
Proof. constructor. Qed.

Lemma secondary_app (t1 t2 : list exchange) :
  secondary t1 -> secondary t2 -> secondary (t1 ++ t2).
Proof. intros H1 H2. apply Forall_app. now split. Qed.

Lemma secondary_no_failure (tr : list exchange) (x : exchange) (e : error) :
  secondary tr -> In x tr -> upstream_failure x = Some e -> False.
Proof.
  intros Hs Hin Hf. unfold secondary in Hs. rewrite Forall_forall in Hs.
  specialize (Hs x Hin). destruct x as [p [?|?] | | rq [?|? ?] |]; cbn in *; congruence.
Qed.

Lemma secondary_not_primary (tr : list exchange) (x : exchange) :
  secondary tr -> In x tr -> is_primary x = true -> False.
Proof.
  intros Hs Hin Hp. unfold secondary in Hs. rewrite Forall_forall in Hs.
  specialize (Hs x Hin). congruence.
Qed.

Create HintDb trace.
#[local] Hint Resolve extends_refl extends_record extends_then_record extends_trans
  secondary_nil secondary_app : trace.

Section Runs.

Variable w : World.
Variable cfg : ApiConfig.

(** *** The private methods *)

(** [_callGemini] makes one exchange with the model; a failure of it is
    thrown again under the prefix of the source.  Without a model
    handle it throws before anything is sent. *)
Lemma callGemini_run (prompt type : jsstring) (s : State) :
  (model s = None
   /\ exists e, _callGemini w prompt type s = (Throw e, s))
  \/
  (exists r,
     _callGemini w prompt type s
     = (match r with
        | inl e => Throw (Error (js "Gemini API error: " ++ message e))
        | inr answer => Return answer
        end,
        record_exchange w (XGenerate (systemPrompt ++ nl ++ nl ++ prompt) r) s)).
Proof.
  unfold _callGemini, try_catch, generate.
  destruct (model s) as [m|].
  - right. exists (generateContent w (List.length (exchanges s)) (gm_apiKey m)
                     (gm_model m) (systemPrompt ++ nl ++ nl ++ prompt)).
    destruct (generateContent w _ _ _ _); reflexivity.
  - left. split; [reflexivity |]. eexists. reflexivity.
Qed.

(** [_analyzeWithNaturalLanguage] never throws, and talks to the language
    service only. *)
Lemma analyze_run (text : option jsstring) (s : State) :
  exists a s' tr,
    _analyzeWithNaturalLanguage w cfg text s = (Return a, s')
    /\ extends s s' tr /\ secondary tr.
Proof.
  unfold _analyzeWithNaturalLanguage, try_catch, bind, substring_of.
  destruct text as [t|]; cbn [ret throw].
  2: { exists no_analysis, s, []. auto with trace. }
  unfold fetching.
  destruct (fetch_language w _ _) as [e | status [e | data]] eqn:Hf; cbn [fst snd].
  - eexists _, _, _; repeat split; [constructor; [reflexivity | constructor]].
  - destruct (negb (ok status)); cbn [throw json_of];
      eexists _, _, _; repeat split; constructor; try reflexivity; constructor.
  - destruct (negb (ok status)); cbn [throw json_of ret];
      eexists _, _, _; repeat split; constructor; try reflexivity; constructor.
Qed.

(** So does [_summarizeWithHuggingFace], with the summarisation model. *)
Lemma summarizeWithHuggingFace_run (text : option jsstring) (type : jsstring) (s : State) :
  exists summary s' tr,
    _summarizeWithHuggingFace w cfg text type s = (Return summary, s')
    /\ extends s s' tr /\ secondary tr.
Proof.
  unfold _summarizeWithHuggingFace, try_catch, bind, substring_of.
  destruct text as [t|]; cbn [ret throw].
  2: { exists None, s, []. auto with trace. }
  unfold fetching.
  destruct (fetch_huggingface w _ _) as [e | status [e | data]] eqn:Hf; cbn [fst snd].
  - eexists _, _, _; repeat split; [constructor; [reflexivity | constructor]].
  - destruct (negb (ok status)); cbn [throw json_of];
      eexists _, _, _; repeat split; constructor; try reflexivity; constructor.
  - destruct (negb (ok status)); cbn [throw json_of ret].
    + eexists _, _, _; repeat split; constructor; try reflexivity; constructor.
    + destruct data as [[| first rest] | summary]; cbn [throw ret];
        eexists _, _, _; repeat split; constructor; try reflexivity; constructor.
Qed.

(** *** The operations, run

    Each lemma tells what a run of an operation returns, in terms of
    what the model answered, and which exchanges it made. *)

(** What an operation that asks the model returns for an answer [r] of
    the model, given its fallback text. *)
Definition answer_or (fallback : jsstring) (r : error + jsstring) : value :=
  match r with
  | inl _ => VStr fallback
  | inr answer => VStr (or_else answer fallback)
  end.

(** Unfolding the monad, and nothing else. *)
Ltac run := cbv beta iota zeta delta [bind try_catch ret throw substring_of json_of].

Ltac analyzed :=
  match goal with
  | |- context [_analyzeWithNaturalLanguage w cfg ?t ?s] =>
      let a := fresh "a" in
      let s1 := fresh "s" in
      let tr := fresh "tr" in
      let Hrun := fresh "Hrun" in
      let Hext := fresh "Hext" in
      let Hsec := fresh "Hsec" in
      destruct (analyze_run t s) as (a & s1 & tr & Hrun & Hext & Hsec);
      rewrite Hrun; run
  end.

Ltac asked :=
  match goal with
  | |- context [_callGemini w ?p ?ty ?s] =>
      let e := fresh "e" in
      let r := fresh "r" in
      let Hnone := fresh "Hnone" in
      let Hrun := fresh "Hrun" in
      destruct (callGemini_run p ty s) as [(Hnone & e & Hrun) | (r & Hrun)];
      rewrite Hrun; [| destruct r as [e | answer]]; run
  end.

Ltac hugged :=
  match goal with
  | |- context [_summarizeWithHuggingFace w cfg ?t ?ty ?s] =>
      let summary := fresh "summary" in
      let s1 := fresh "s" in
      let tr := fresh "tr" in
      let Hrun := fresh "Hrun" in
      let Hext := fresh "Hext" in
      let Hsec := fresh "Hsec" in
      destruct (summarizeWithHuggingFace_run t ty s)
        as (summary & s1 & tr & Hrun & Hext & Hsec);
      rewrite Hrun; run
  end.

(** Closing a case of a run lemma: the run made the secondary
    exchanges [tr] and then stopped ([stopped]), or went on to ask the
    model, which answered [r] ([answered]). *)
Ltac stopped tr :=
  eexists _, tr; split;
  [ solve [auto with trace]
  | left; first [ split | eexists; split ];
    [reflexivity | solve [eauto with trace]] ].

Ltac answered tr r :=
  eexists _, tr; split;
  [ solve [auto with trace]
  | right; eexists _, r; split; [reflexivity | solve [eauto with trace]] ].

(** The cases left once the run has been stepped through. *)
Ltac settle :=
  match goal with
  | e : error |- _ =>
      first [ answered (@nil exchange) (@inl error jsstring e)
            | match goal with
              | t1 : list exchange, t2 : list exchange |- _ =>
                  first [ answered t1 (@inl error jsstring e)
                        | answered (t1 ++ t2) (@inl error jsstring e) ]
              | t1 : list exchange |- _ => answered t1 (@inl error jsstring e)
              end ]
  | answer : jsstring |- _ =>
      first [ answered (@nil exchange) (@inr error jsstring answer)
            | match goal with
              | t1 : list exchange, t2 : list exchange |- _ =>
                  first [ answered t1 (@inr error jsstring answer)
                        | answered (t1 ++ t2) (@inr error jsstring answer) ]
              | t1 : list exchange |- _ => answered t1 (@inr error jsstring answer)
              end ]
  | _ =>
      first [ stopped (@nil exchange)
            | match goal with
              | t1 : list exchange, t2 : list exchange |- _ =>
                  first [ stopped t1 | stopped (t1 ++ t2) ]
              | t1 : list exchange |- _ => stopped t1
              end ]
  end.

Lemma askLegalQuestion_run (this : LegalAIService)
    (question documentContext : option jsstring) (s : State) :
  let fallback := _getFallbackLegalResponse question in
  exists s' tr,
    secondary tr
    /\ ((askLegalQuestion w cfg this question documentContext s
         = (Return (VStr fallback), s')
         /\ extends s s' tr)
        \/ exists p r,
             askLegalQuestion w cfg this question documentContext s
             = (Return (answer_or fallback r), s')
             /\ extends s s' (tr ++ [XGenerate p r])).
Proof.
  intro fallback. unfold askLegalQuestion. run.
  destruct (nlp (availableServices this) && truthy (default_to [] documentContext)).
  - analyzed. asked; [stopped tr | answered tr (@inl error jsstring e)
                      | answered tr (@inr error jsstring answer)].
  - asked; [stopped (@nil exchange) | answered (@nil exchange) (@inl error jsstring e)
            | answered (@nil exchange) (@inr error jsstring answer)].
Qed.

Lemma summarizeDocument_run (this : LegalAIService)
    (documentText summaryType summaryLength : option jsstring) (s : State) :
  let fallback :=
    _getFallbackSummary (default_to (js "comprehensive") summaryType)
      (default_to (js "medium") summaryLength) in
  exists s' tr,
    secondary tr
    /\ ((exists summary,
           summarizeDocument w cfg this documentText summaryType summaryLength s
           = (Return (VStr summary), s')
           /\ extends s s' tr)
        \/ exists p r,
             summarizeDocument w cfg this documentText summaryType summaryLength s
             = (Return (answer_or fallback r), s')
             /\ extends s s' (tr ++ [XGenerate p r])).
Proof.
  intro fallback. unfold summarizeDocument, _buildSummarizationPrompt. run.
  destruct documentText as [t|].
  2: { destruct (nlp (availableServices this)); stopped (@nil exchange). }
  destruct (nlp (availableServices this)), (huggingface (availableServices this));
    try analyzed; try hugged;
    try (destruct (configured summary); run);
    cbn [configured];
    try asked;
    settle.
Qed.

(** The translated text [translateText] reads in a body, if it is there. *)
Definition translated (data : translate_body) : option jsstring :=
  match body_data data with
  | Some d =>
      match translations d with
      | Some (first :: _) => translatedText first
      | _ => None
      end
  | None => None
  end.

(** What [translateText] returns for an answer [r] of the translation
    service. *)
Definition translation_or (fallback : jsstring) (r : fetch_result translate_body)
  : value :=
  match r with
  | Response status (inr data) =>
      if ok status
      then match translated data with
           | Some t => VStr (trim (remove_annotations t))
           | None => VStr fallback
           end
      else VStr fallback
  | _ => VStr fallback
  end.

Ltac translated_with tr :=
  match goal with
  | |- exists s' _, _ /\ ((_, ?st) = _ /\ _ \/ _) => exists st, tr
  end; split;
  [ solve [auto with trace]
  | right; eexists _, _; split; [ | solve [eauto with trace]];
    cbn [translation_or translated body_data translations translatedText];
    repeat match goal with H : ok _ = _ |- _ => rewrite H end;
    reflexivity ].

Lemma translateText_run (this : LegalAIService)
    (text sourceLang targetLang : option jsstring) (s : State) :
  let fallback := _getFallbackTranslation text sourceLang targetLang in
  exists s' tr,
    secondary tr
    /\ ((translateText w cfg this text sourceLang targetLang s
         = (Return (VStr fallback), s')
         /\ extends s s' tr)
        \/ exists rq r,
             translateText w cfg this text sourceLang targetLang s
             = (Return (translation_or fallback r), s')
             /\ extends s s' (tr ++ [XTranslate rq r])).
Proof.
  intro fallback. unfold translateText, first_translatedText. run.
  destruct (translation (availableServices this)); cbn [negb]; [| stopped (@nil exchange)].
  destruct (nlp (availableServices this));
    [ destruct text as [t|];
      [ destruct (100 <? List.length t);
        [ analyzed; destruct (filter is_party (entities a)) as [| party parties] | ]
      | stopped (@nil exchange) ]
    | ];
    unfold fetching; cbv zeta;
    (destruct (fetch_translate w _ _) as [e | status [e | data]] eqn:Hf;
     [ | destruct (ok status) eqn:Hok
       | destruct (ok status) eqn:Hok;
         [ destruct data as [[[[[| [[translation|]] rest]|]]|]] | ] ]);
    cbn [fst snd negb]; rewrite ?Hok; cbn [negb body_data translations translatedText]; run;
    first [ translated_with (@nil exchange)
          | match goal with tr : list exchange |- _ => translated_with tr end ].
Qed.

(** Closing a case whose final state is read off the goal. *)
Ltac final_state tr :=
  match goal with
  | |- exists s' _, _ /\ (ex _ \/ _) =>
      match goal with
      | |- context [(_, ?st) = _] => exists st, tr
      end
  | |- exists s' _, _ /\ ((_, ?st) = _ /\ _ \/ _) => exists st, tr
  end; split; [solve [auto with trace] |].

Lemma performSemanticSearch_run (this : LegalAIService)
    (query documentText : option jsstring) (s : State) :
  let fallback := _getFallbackSearchResults query in
  exists s' tr,
    secondary tr
    /\ ((performSemanticSearch w this query documentText s
         = (Return (VStr fallback), s')
         /\ extends s s' tr)
        \/ exists p r,
             extends s s' (tr ++ [XGenerate p r])
             /\ exists found,
                  performSemanticSearch w this query documentText s
                  = (Return (VStr found), s')
                  /\ (forall e, r = inl e -> found = fallback)).
Proof.
  intro fallback.
  unfold performSemanticSearch, _buildSearchPrompt, _searchWithNaturalLanguage,
    _searchLegalEntities. run.
  destruct documentText as [t|].
  2: { destruct (nlp (availableServices this)); run; stopped (@nil exchange). }
  destruct (nlp (availableServices this)); run; asked;
    try (destruct (huggingface (availableServices this)); run);
    first
      [ stopped (@nil exchange)
      | final_state (@nil exchange); right; eexists _, _;
        split; [solve [eauto with trace] |];
        eexists; split; [reflexivity |];
        first [ reflexivity | intros ? [=] ] ].
Qed.

Lemma compareDocuments_run (this : LegalAIService)
    (doc1Text doc2Text : option jsstring) (s : State) :
  exists s' tr,
    secondary tr
    /\ ((compareDocuments w this doc1Text doc2Text s
         = (Return (VStr comparison_failed), s')
         /\ extends s s' tr)
        \/ exists p r,
             compareDocuments w this doc1Text doc2Text s
             = (Return (VStr (match r with
                              | inl _ => comparison_failed
                              | inr answer => answer
                              end)), s')
             /\ extends s s' (tr ++ [XGenerate p r])).
Proof.
  unfold compareDocuments. run.
  destruct doc1Text as [t1|]; [| stopped (@nil exchange)].
  destruct doc2Text as [t2|]; [| stopped (@nil exchange)].
  asked; settle.
Qed.

(** The record of a successful risk assessment. *)
Definition risk_record (analysis : value) (assessment stamp : jsstring) : value :=
  VObj [(js "nlpAnalysis", analysis);
        (js "aiAssessment", VStr assessment);
        (js "timestamp", VStr stamp)].

(** The entry [nlpAnalysis] of that record when the language service was
    consulted. *)
Definition language_assessment (a : nlp_analysis) : value :=
  VObj [(js "source", VStr (js "Natural Language Analysis"));
        (js "sentiment", sentiment_value (sentiment_of a));
        (js "entities", VArr (map entity_value (entities a)))].

Lemma assessLegalRisk_run (this : LegalAIService)
    (documentText : option jsstring) (s : State) :
  exists s' tr,
    secondary tr
    /\ ((exists e,
           assessLegalRisk w cfg this documentText s = (Return (risk_failed e), s')
           /\ extends s s' tr)
        \/ exists p r,
             extends s s' (tr ++ [XGenerate p r])
             /\ exists analysis,
                  (analysis = VNull \/ exists a, analysis = language_assessment a)
                  /\ assessLegalRisk w cfg this documentText s
                     = (Return (match r with
                                | inl e =>
                                    risk_failed (Error (js "Gemini API error: "
                                                        ++ message e))
                                | inr answer =>
                                    risk_record analysis answer (toISOString w (now s'))
                                end), s')).
Proof.
  unfold assessLegalRisk, timestamp. run.
  destruct (nlp (availableServices this)); try analyzed;
    (destruct documentText as [t|]; [asked |]);
    first
      [ stopped (@nil exchange)
      | match goal with tr : list exchange |- _ => stopped tr end
      | final_state (@nil exchange); right; eexists _, _;
        split; [solve [eauto with trace] |];
        eexists; split; [| reflexivity];
        first [ left; reflexivity | right; eexists; reflexivity ]
      | match goal with
        | tr : list exchange |- _ =>
            final_state tr; right; eexists _, _;
            split; [solve [eauto with trace] |];
            eexists; split; [| reflexivity];
            first [ left; reflexivity | right; eexists; reflexivity ]
        end ].
Qed.

(** *** An upstream failure inside an operation *)

(** In a run that made the exchanges [tr] and then the primary exchange
    [x], a failed primary exchange is [x]. *)
Lemma failure_is_last (tr : list exchange) (x y : exchange) (e : error) :
  secondary tr -> In y (tr ++ [x]) -> upstream_failure y = Some e -> y = x.
Proof.
  intros Hsec Hin Hf. apply in_app_or in Hin. destruct Hin as [Hin | [<- | []]].
  - exfalso. eapply secondary_no_failure; eauto.
  - reflexivity.
Qed.

Lemma primary_is_last (tr : list exchange) (x y : exchange) :
  secondary tr -> In y (tr ++ [x]) -> is_primary y = true -> y = x.
Proof.
  intros Hsec Hin Hp. apply in_app_or in Hin. destruct Hin as [Hin | [<- | []]].
  - exfalso. eapply secondary_not_primary; eauto.
  - reflexivity.
Qed.

(** From a run lemma to the two cases of a run, with the trace of the
    run in place of [made]. *)
Ltac by_run H :=
  let s' := fresh "s'" in
  let tr := fresh "tr" in
  let Hsec := fresh "Hsec" in
  let Hrun := fresh "Hrun" in
  let Hext := fresh "Hext" in
  destruct H as (s' & tr & Hsec & H);
  cbv zeta in H;
  destruct H as [H | H];
  repeat match type of H with
         | ex _ => let v := fresh "v" in destruct H as [v H]
         end;
  repeat match goal with
         | K : _ /\ _ |- _ => destruct K
         | K : ex _ |- _ => destruct K
         end;
  repeat match goal with
         | K : ?m = (_, _) |- _ => rewrite K in *; clear K
         end;
  cbn [fst snd] in *;
  repeat match goal with
         | K : extends ?s ?s1 ?t, L : context [made ?s ?s1] |- _ =>
             rewrite (made_extends s s1 t K) in L
         end.

Lemma askLegalQuestion_masks (this : LegalAIService)
    (question documentContext : option jsstring) (s : State) (x : exchange) (e : error) :
  In x (made s (snd (askLegalQuestion w cfg this question documentContext s))) ->
  upstream_failure x = Some e ->
  fst (askLegalQuestion w cfg this question documentContext s)
  = Return (VStr (_getFallbackLegalResponse question)).
Proof.
  intros Hin Hf.
  pose proof (askLegalQuestion_run this question documentContext s) as H. by_run H.
  - exfalso. eapply secondary_no_failure; eauto.
  - pose proof (failure_is_last _ _ _ _ Hsec Hin Hf) as Hx. subst x.
    destruct v0; [reflexivity | discriminate].
Qed.

Lemma summarizeDocument_masks (this : LegalAIService)
    (documentText summaryType summaryLength : option jsstring)
    (s : State) (x : exchange) (e : error) :
  In x (made s (snd (summarizeDocument w cfg this documentText summaryType summaryLength s))) ->
  upstream_failure x = Some e ->
  fst (summarizeDocument w cfg this documentText summaryType summaryLength s)
  = Return (VStr (_getFallbackSummary (default_to (js "comprehensive") summaryType)
                    (default_to (js "medium") summaryLength))).
Proof.
  intros Hin Hf.
  pose proof (summarizeDocument_run this documentText summaryType summaryLength s) as H.
  by_run H.
  - exfalso. eapply secondary_no_failure; eauto.
  - pose proof (failure_is_last _ _ _ _ Hsec Hin Hf) as Hx. subst x.
    destruct v0; [reflexivity | discriminate].
Qed.

Lemma translateText_masks (this : LegalAIService)
    (text sourceLang targetLang : option jsstring)
    (s : State) (x : exchange) (e : error) :
  In x (made s (snd (translateText w cfg this text sourceLang targetLang s))) ->
  upstream_failure x = Some e ->
  fst (translateText w cfg this text sourceLang targetLang s)
  = Return (VStr (_getFallbackTranslation text sourceLang targetLang)).
Proof.
  intros Hin Hf.
  pose proof (translateText_run this text sourceLang targetLang s) as H. by_run H.
  - exfalso. eapply secondary_no_failure; eauto.
  - pose proof (failure_is_last _ _ _ _ Hsec Hin Hf) as Hx. subst x.
    destruct v0 as [e' | status json]; [reflexivity | discriminate].
Qed.

Lemma performSemanticSearch_masks (this : LegalAIService)
    (query documentText : option jsstring)
    (s : State) (x : exchange) (e : error) :
  In x (made s (snd (performSemanticSearch w this query documentText s))) ->
  upstream_failure x = Some e ->
  fst (performSemanticSearch w this query documentText s)
  = Return (VStr (_getFallbackSearchResults query)).
Proof.
  intros Hin Hf.
  pose proof (performSemanticSearch_run this query documentText s) as H. by_run H.
  - exfalso. eapply secondary_no_failure; eauto.
  - pose proof (failure_is_last _ _ _ _ Hsec Hin Hf) as Hx. subst x.
    destruct v0 as [e' | answer]; [| discriminate].
    f_equal. f_equal. eauto.
Qed.

Lemma compareDocuments_masks (this : LegalAIService)
    (doc1Text doc2Text : option jsstring)
    (s : State) (x : exchange) (e : error) :
  In x (made s (snd (compareDocuments w this doc1Text doc2Text s))) ->
  upstream_failure x = Some e ->
  fst (compareDocuments w this doc1Text doc2Text s)
  = Return (VStr comparison_failed).
Proof.
  intros Hin Hf.
  pose proof (compareDocuments_run this doc1Text doc2Text s) as H. by_run H.
  - exfalso. eapply secondary_no_failure; eauto.
  - pose proof (failure_is_last _ _ _ _ Hsec Hin Hf) as Hx. subst x.
    destruct v0; [reflexivity | discriminate].
Qed.

(** [assessLegalRisk] answers a failure of the model with a record that
    carries the message of the error it caught. *)
Lemma assessLegalRisk_masks (this : LegalAIService)
    (documentText : option jsstring)
    (s : State) (x : exchange) (e : error) :
  In x (made s (snd (assessLegalRisk w cfg this documentText s))) ->
  upstream_failure x = Some e ->
  fst (assessLegalRisk w cfg this documentText s)
  = Return (risk_failed (Error (js "Gemini API error: " ++ message e))).
Proof.
  intros Hin Hf.
  pose proof (assessLegalRisk_run this documentText s) as H. by_run H.
  - exfalso. eapply secondary_no_failure; eauto.
  - pose proof (failure_is_last _ _ _ _ Hsec Hin Hf) as Hx. subst x.
    destruct v0 as [e' | answer]; [| discriminate].
    cbn in Hf. injection Hf as ->. reflexivity.
Qed.

(** *** The handler *)

Definition operations : list jsstring :=
  [js "askLegalQuestion"; js "summarizeDocument"; js "translateText";
   js "performSemanticSearch"; js "compareDocuments"; js "assessLegalRisk"].

Definition recognized : list jsstring := operations ++ [js "healthCheck"].

(** The model can be used: it was initialised by an earlier request, or
    its key is configured, so that this request initialises it. *)
Definition ready (s : State) : Prop :=
  model s <> None \/ configured (GEMINI_KEY cfg) = true.

(** How the handler answers the completion of its [try] block. *)
Definition respond (r : completion value * State) : Res * State :=
  match r with
  | (Return result, s') =>
      ({| statusCode := 200; headers := cors_headers;
          sent := Some (success_envelope result (toISOString w (now s'))) |}, s')
  | (Throw error, s') =>
      ({| statusCode := 500; headers := cors_headers;
          sent := Some (failure_envelope error (toISOString w (now s'))) |}, s')
  end.

Lemma str_eqb_refl (a : jsstring) : str_eqb a a = true.
Proof. unfold str_eqb. destruct (str_eq_dec a a); congruence. Qed.

Lemma str_eqb_neq (a b : jsstring) : a <> b -> str_eqb a b = false.
Proof. unfold str_eqb. destruct (str_eq_dec a b); congruence. Qed.

Lemma handler_responds (req : Req) (s : State) :
  method req <> js "OPTIONS" ->
  handler w cfg req s = respond (serve w cfg req s).
Proof.
  intro Hm. unfold handler, respond. rewrite (str_eqb_neq _ _ Hm).
  destruct (serve w cfg req s) as [[result | error] s']; reflexivity.
Qed.

(** A request that finds the model usable reaches the [switch]. *)
Lemma serve_ready (req : Req) (b : Body) (s : State) :
  body req = Some b ->
  ready s ->
  exists s1,
    model s1 <> None /\ exchanges s1 = exchanges s /\ now s1 = now s
    /\ serve w cfg req s
       = dispatch w cfg (new_LegalAIService cfg) (action b) (params b) s1.
Proof.
  intros Hb Hr. unfold serve, bind. rewrite Hb.
  destruct (model s) as [m|] eqn:Hm.
  - exists s. cbn [ret]. repeat split; congruence.
  - destruct Hr as [Hr | Hr]; [congruence |].
    unfold initializeGemini. rewrite Hr. cbn [negb].
    eexists. split; [| split; [| split]]; [| | | reflexivity]; cbn; congruence.
Qed.

Lemma made_from (s s1 s' : State) :
  exchanges s1 = exchanges s -> made s s' = made s1 s'.
Proof. unfold made. now intros ->. Qed.

(** The cases of the [switch]. *)
Lemma dispatch_askLegalQuestion (l : LegalAIService) (p : Params) :
  dispatch w cfg l (Some (js "askLegalQuestion")) p
  = askLegalQuestion w cfg l (question p) (documentContext p).
Proof. reflexivity. Qed.

Lemma dispatch_summarizeDocument (l : LegalAIService) (p : Params) :
  dispatch w cfg l (Some (js "summarizeDocument")) p
  = summarizeDocument w cfg l (documentText p) (summaryType p) (summaryLength p).
Proof. reflexivity. Qed.

Lemma dispatch_translateText (l : LegalAIService) (p : Params) :
  dispatch w cfg l (Some (js "translateText")) p
  = translateText w cfg l (text p) (sourceLang p) (targetLang p).
Proof. reflexivity. Qed.

Lemma dispatch_performSemanticSearch (l : LegalAIService) (p : Params) :
  dispatch w cfg l (Some (js "performSemanticSearch")) p
  = performSemanticSearch w l (query p) (documentText p).
Proof. reflexivity. Qed.

Lemma dispatch_compareDocuments (l : LegalAIService) (p : Params) :
  dispatch w cfg l (Some (js "compareDocuments")) p
  = compareDocuments w l (doc1Text p) (doc2Text p).
Proof. reflexivity. Qed.

Lemma dispatch_assessLegalRisk (l : LegalAIService) (p : Params) :
  dispatch w cfg l (Some (js "assessLegalRisk")) p
  = assessLegalRisk w cfg l (documentText p).
Proof. reflexivity. Qed.

Lemma dispatch_healthCheck (l : LegalAIService) (p : Params) (s : State) :
  dispatch w cfg l (Some (js "healthCheck")) p s
  = (Return (VObj [(js "status", VStr (js "healthy"));
                   (js "services", services_value (availableServices l));
                   (js "timestamp", VStr (toISOString w (now s)))]), s).
Proof. reflexivity. Qed.

Lemma dispatch_default (l : LegalAIService) (name : jsstring) (p : Params) (s : State) :
  ~ In name recognized ->
  dispatch w cfg l (Some name) p s
  = (Throw (Error (js "Unknown action: " ++ name)), s).
Proof.
  intro Hn. unfold dispatch, is_case.
  repeat match goal with
         | |- context [str_eqb name ?k] =>
             rewrite (str_eqb_neq name k)
               by (intro Heq; apply Hn; rewrite Heq; unfold recognized, operations;
                   cbn [app In]; tauto)
         end.
  reflexivity.
Qed.

(** What the [catch] branch of each operation returns once the primary
    call has thrown [e]: a text that depends on the request only, except
    for [assessLegalRisk], whose record carries the message of the error
    it caught. *)
Definition fallback_payload (name : jsstring) (p : Params) (e : error) : value :=
  if str_eqb name (js "askLegalQuestion") then
    VStr (_getFallbackLegalResponse (question p))
  else if str_eqb name (js "summarizeDocument") then
    VStr (_getFallbackSummary (default_to (js "comprehensive") (summaryType p))
            (default_to (js "medium") (summaryLength p)))
  else if str_eqb name (js "translateText") then
    VStr (_getFallbackTranslation (text p) (sourceLang p) (targetLang p))
  else if str_eqb name (js "performSemanticSearch") then
    VStr (_getFallbackSearchResults (query p))
  else if str_eqb name (js "compareDocuments") then
    VStr comparison_failed
  else
    risk_failed (Error (js "Gemini API error: " ++ message e)).

(** C1, as the code has it.  For each of the six operations, when the
    call the operation depends on (the generative model; the translation
    service for translateText) throws, the handler answers with status
    200 and an envelope with success true whose data is the payload of
    the catch branch of the operation: a fallback text fixed by the
    request for five operations, and for assessLegalRisk the record
    with error 'Risk assessment failed' and, as details, the message of
    the error caught. *)
Theorem upstream_failure_masked (req : Req) (b : Body) (name : jsstring)
    (s : State) (x : exchange) (e : error) :
  method req <> js "OPTIONS" ->
  body req = Some b ->
  action b = Some name ->
  In name operations ->
  ready s ->
  In x (made s (snd (handler w cfg req s))) ->
  upstream_failure x = Some e ->
  fst (handler w cfg req s)
  = {| statusCode := 200;
       headers := cors_headers;
       sent := Some (success_envelope (fallback_payload name (params b) e)
                       (toISOString w (now (snd (handler w cfg req s))))) |}.
Proof.
  intros Hm Hb Ha Hname Hr Hin Hf.
  rewrite (handler_responds req s Hm) in *.
  destruct (serve_ready req b s Hb Hr) as (s1 & _ & Hex & _ & Hserve).
  rewrite Hserve, Ha in *. clear Hserve.
  assert (Hgoal : forall (op : M value) payload,
             (In x (made s1 (snd (op s1))) -> fst (op s1) = Return payload) ->
             In x (made s (snd (respond (op s1)))) ->
             fst (respond (op s1))
             = {| statusCode := 200; headers := cors_headers;
                  sent := Some (success_envelope payload
                                  (toISOString w (now (snd (respond (op s1)))))) |}).
  { intros op payload Hop Hin'.
    destruct (op s1) as [c s'] eqn:Hrun. cbn [fst snd] in *.
    assert (Hc : c = Return payload).
    { apply Hop. rewrite <- (made_from s s1 s' Hex).
      destruct c; exact Hin'. }
    subst c. reflexivity. }
  unfold operations in Hname. cbn [In] in Hname.
  destruct Hname as [<- | [<- | [<- | [<- | [<- | [<- | []]]]]]].
  - rewrite dispatch_askLegalQuestion in *.
    apply Hgoal; [| exact Hin]. intro H. eapply askLegalQuestion_masks; eauto.
  - rewrite dispatch_summarizeDocument in *.
    apply Hgoal; [| exact Hin]. intro H. eapply summarizeDocument_masks; eauto.
  - rewrite dispatch_translateText in *.
    apply Hgoal; [| exact Hin]. intro H. eapply translateText_masks; eauto.
  - rewrite dispatch_performSemanticSearch in *.
    apply Hgoal; [| exact Hin]. intro H. eapply performSemanticSearch_masks; eauto.
  - rewrite dispatch_compareDocuments in *.
    apply Hgoal; [| exact Hin]. intro H. eapply compareDocuments_masks; eauto.
  - rewrite dispatch_assessLegalRisk in *.
    apply Hgoal; [| exact Hin]. intro H. eapply assessLegalRisk_masks; eauto.
Qed.


(** The answer to a healthCheck request that reaches the switch. *)
Lemma healthCheck_answer (req : Req) (b : Body) (s : State) :
  method req <> js "OPTIONS" ->
  body req = Some b ->
  action b = Some (js "healthCheck") ->
  ready s ->
  fst (handler w cfg req s)
  = {| statusCode := 200;
       headers := cors_headers;
       sent := Some (success_envelope
                       (VObj [(js "status", VStr (js "healthy"));
                              (js "services",
                               VObj [(js "ai", VArr [VStr (js "gemini")]);
                                     (js "nlp", VBool (configured (NATURAL_LANGUAGE_KEY cfg)));
                                     (js "documentAI", VBool (configured (DOCUMENT_AI_KEY cfg)));
                                     (js "translation", VBool (configured (TRANSLATE_KEY cfg)));
                                     (js "huggingface", VBool (configured (HUGGINGFACE_KEY cfg)))]);
                              (js "timestamp", VStr (toISOString w (now s)))])
                       (toISOString w (now s))) |}
  /\ made s (snd (handler w cfg req s)) = [].
Proof.
  intros Hm Hb Ha Hr.
  rewrite (handler_responds req s Hm).
  destruct (serve_ready req b s Hb Hr) as (s1 & _ & Hex & Hnow & Hserve).
  rewrite Hserve, Ha, dispatch_healthCheck.
  cbn [respond fst snd]. rewrite Hnow. split; [reflexivity |].
  unfold made. rewrite Hex. apply skipn_all.
Qed.

(** *** Without the key of the model *)

Definition key_required : error :=
  Error (js "GEMINI_API_KEY environment variable is required").

Lemma handler_without_key (req : Req) (s : State) :
  configured (GEMINI_KEY cfg) = false ->
  model s = None ->
  method req <> js "OPTIONS" ->
  handler w cfg req s
  = ({| statusCode := 500;
        headers := cors_headers;
        sent := Some (failure_envelope key_required (toISOString w (now s))) |}, s).
Proof.
  intros Hk Hmodel Hm. rewrite (handler_responds req s Hm).
  unfold serve, bind, initializeGemini. rewrite Hmodel, Hk. reflexivity.
Qed.

(** The requests of a list, handled one after the other. *)
Fixpoint handle_all (reqs : list Req) (s : State) : list Res * State :=
  match reqs with
  | [] => ([], s)
  | req :: rest =>
      let (res, s1) := handler w cfg req s in
      let (others, s2) := handle_all rest s1 in
      (res :: others, s2)
  end.

Lemma handle_all_without_key (reqs : list Req) (s : State) :
  configured (GEMINI_KEY cfg) = false ->
  model s = None ->
  Forall (fun req => method req <> js "OPTIONS") reqs ->
  handle_all reqs s
  = (map (fun _ => {| statusCode := 500;
                      headers := cors_headers;
                      sent := Some (failure_envelope key_required
                                      (toISOString w (now s))) |}) reqs,
     s).
Proof.
  intros Hk Hmodel Hall. induction Hall as [| req rest Hreq _ IH]; [reflexivity |].
  cbn [handle_all map]. rewrite (handler_without_key req s Hk Hmodel Hreq), IH.
  reflexivity.
Qed.

(** *** Answers of the model *)

(** C10.  When the model is called and answers with the empty string,
    askLegalQuestion and summarizeDocument return their fallback text. *)
Theorem empty_answer_falls_back (this : LegalAIService)
    (question documentContext documentText summaryType summaryLength : option jsstring)
    (s : State) (p : jsstring) :
  (In (XGenerate p (inr []))
      (made s (snd (askLegalQuestion w cfg this question documentContext s))) ->
   fst (askLegalQuestion w cfg this question documentContext s)
   = Return (VStr (_getFallbackLegalResponse question)))
  /\
  (In (XGenerate p (inr []))
      (made s (snd (summarizeDocument w cfg this documentText summaryType summaryLength s))) ->
   fst (summarizeDocument w cfg this documentText summaryType summaryLength s)
   = Return (VStr (_getFallbackSummary (default_to (js "comprehensive") summaryType)
                     (default_to (js "medium") summaryLength)))).
Proof.
  split; intro Hin.
  - pose proof (askLegalQuestion_run this question documentContext s) as H. by_run H.
    + exfalso. eapply secondary_not_primary; eauto.
    + pose proof (primary_is_last _ _ _ Hsec Hin eq_refl) as Hx.
      injection Hx as _ <-. reflexivity.
  - pose proof (summarizeDocument_run this documentText summaryType summaryLength s) as H.
    by_run H.
    + exfalso. eapply secondary_not_primary; eauto.
    + pose proof (primary_is_last _ _ _ Hsec Hin eq_refl) as Hx.
      injection Hx as _ <-. reflexivity.
Qed.

(** Every operation but assessLegalRisk returns a string, whatever
    happens upstream. *)
Lemma askLegalQuestion_string (this : LegalAIService)
    (question documentContext : option jsstring) (s : State) :
  exists answer,
    fst (askLegalQuestion w cfg this question documentContext s) = Return (VStr answer).
Proof.
  pose proof (askLegalQuestion_run this question documentContext s) as H. by_run H.
  - eexists; reflexivity.
  - destruct v0; eexists; reflexivity.
Qed.

Lemma summarizeDocument_string (this : LegalAIService)
    (documentText summaryType summaryLength : option jsstring) (s : State) :
  exists answer,
    fst (summarizeDocument w cfg this documentText summaryType summaryLength s)
    = Return (VStr answer).
Proof.
  pose proof (summarizeDocument_run this documentText summaryType summaryLength s) as H.
  by_run H.
  - eexists; reflexivity.
  - destruct v0; eexists; reflexivity.
Qed.

Lemma translateText_string (this : LegalAIService)
    (text sourceLang targetLang : option jsstring) (s : State) :
  exists answer,
    fst (translateText w cfg this text sourceLang targetLang s) = Return (VStr answer).
Proof.
  pose proof (translateText_run this text sourceLang targetLang s) as H. by_run H.
  - eexists; reflexivity.
  - destruct v0 as [e | status [e | data]]; cbn [translation_or];
      try (eexists; reflexivity).
    destruct (ok status), (translated data); eexists; reflexivity.
Qed.

Lemma performSemanticSearch_string (this : LegalAIService)
    (query documentText : option jsstring) (s : State) :
  exists answer,
    fst (performSemanticSearch w this query documentText s) = Return (VStr answer).
Proof.
  pose proof (performSemanticSearch_run this query documentText s) as H. by_run H;
    eexists; reflexivity.
Qed.

Lemma compareDocuments_string (this : LegalAIService)
    (doc1Text doc2Text : option jsstring) (s : State) :
  exists answer,
    fst (compareDocuments w this doc1Text doc2Text s) = Return (VStr answer).
Proof.
  pose proof (compareDocuments_run this doc1Text doc2Text s) as H. by_run H;
    eexists; reflexivity.
Qed.

(** C7, as the code has it.  When the model answers assessLegalRisk, the
    operation returns a record with exactly the entries nlpAnalysis,
    aiAssessment and timestamp: the assessment of the language service
    or null, the text of the model as it came, and the ISO rendering of
    the clock read after the answer.  Each of the other five operations
    returns a string on every run. *)
Theorem operation_results (this : LegalAIService) :
  (forall documentText s p answer,
      In (XGenerate p (inr answer))
         (made s (snd (assessLegalRisk w cfg this documentText s))) ->
      exists analysis,
        (analysis = VNull \/ exists a, analysis = language_assessment a)
        /\ fst (assessLegalRisk w cfg this documentText s)
           = Return (VObj [(js "nlpAnalysis", analysis);
                           (js "aiAssessment", VStr answer);
                           (js "timestamp",
                            VStr (toISOString w
                                    (now (snd (assessLegalRisk w cfg this documentText s)))))]))
  /\ (forall question documentContext s,
         exists answer,
           fst (askLegalQuestion w cfg this question documentContext s)
           = Return (VStr answer))
  /\ (forall documentText summaryType summaryLength s,
         exists answer,
           fst (summarizeDocument w cfg this documentText summaryType summaryLength s)
           = Return (VStr answer))
  /\ (forall text sourceLang targetLang s,
         exists answer,
           fst (translateText w cfg this text sourceLang targetLang s)
           = Return (VStr answer))
  /\ (forall query documentText s,
         exists answer,
           fst (performSemanticSearch w this query documentText s)
           = Return (VStr answer))
  /\ (forall doc1Text doc2Text s,
         exists answer,
           fst (compareDocuments w this doc1Text doc2Text s) = Return (VStr answer)).
Proof.
  split; [| repeat split; intros;
            [ apply askLegalQuestion_string | apply summarizeDocument_string
            | apply translateText_string | apply performSemanticSearch_string
            | apply compareDocuments_string ] ].
  intros documentText s p answer Hin.
  pose proof (assessLegalRisk_run this documentText s) as H. by_run H.
  - exfalso. eapply secondary_not_primary; eauto.
  - pose proof (primary_is_last _ _ _ Hsec Hin eq_refl) as Hx.
    injection Hx as _ <-. eexists. split; [eassumption | reflexivity].
Qed.

(** *** Determinism *)

(** An upstream that answers a request the same way whenever it is
    asked. *)
Definition deterministic : Prop :=
  (forall n n' key name prompt,
      generateContent w n key name prompt = generateContent w n' key name prompt)
  /\ (forall n n' rq, fetch_language w n rq = fetch_language w n' rq)
  /\ (forall n n' rq, fetch_translate w n rq = fetch_translate w n' rq)
  /\ (forall n n' rq, fetch_huggingface w n rq = fetch_huggingface w n' rq).

(** Two states of the process that may differ in their clock and in what
    was exchanged before. *)
Definition same_model (s1 s2 : State) : Prop := model s1 = model s2.

(** A computation whose completion does not depend on the clock nor on
    the exchanges made before it. *)
Definition stable {A} (m : M A) : Prop :=
  forall s1 s2,
    same_model s1 s2 ->
    fst (m s1) = fst (m s2) /\ same_model (snd (m s1)) (snd (m s2)).

Lemma stable_ret {A} (a : A) : stable (ret a).
Proof. intros s1 s2 H. now split. Qed.

Lemma stable_throw {A} (e : error) : stable (@throw A e).
Proof. intros s1 s2 H. now split. Qed.

Lemma stable_bind {A B} (m : M A) (k : A -> M B) :
  stable m -> (forall a, stable (k a)) -> stable (bind m k).
Proof.
  intros Hm Hk s1 s2 H. unfold bind.
  destruct (Hm s1 s2 H) as [Hres Hst].
  destruct (m s1) as [[a1 | e1] t1], (m s2) as [[a2 | e2] t2];
    cbn [fst snd] in *; try discriminate.
  - injection Hres as ->. now apply Hk.
  - injection Hres as ->. now split.
Qed.

Lemma stable_try_catch {A} (m : M A) (handler : error -> M A) :
  stable m -> (forall e, stable (handler e)) -> stable (try_catch m handler).
Proof.
  intros Hm Hh s1 s2 H. unfold try_catch.
  destruct (Hm s1 s2 H) as [Hres Hst].
  destruct (m s1) as [[a1 | e1] t1], (m s2) as [[a2 | e2] t2];
    cbn [fst snd] in *; try discriminate.
  - injection Hres as ->. now split.
  - injection Hres as ->. now apply Hh.
Qed.

Lemma stable_if {A} (b : bool) (m1 m2 : M A) :
  stable m1 -> stable m2 -> stable (if b then m1 else m2).
Proof. now destruct b. Qed.

Lemma stable_substring_of (v : option jsstring) (n : nat) : stable (substring_of w v n).
Proof. destruct v; [apply stable_ret | apply stable_throw]. Qed.

Lemma stable_json_of {B} (body : error + B) : stable (json_of body).
Proof. destruct body; [apply stable_throw | apply stable_ret]. Qed.

Section Deterministic.

Hypothesis upstream : deterministic.

Lemma stable_generate (fullPrompt : jsstring) : stable (generate w fullPrompt).
Proof.
  destruct upstream as (Hgen & _).
  intros s1 s2 H. unfold generate. rewrite H.
  destruct (model s2) as [m|]; [| now split].
  rewrite (Hgen (List.length (exchanges s1)) (List.length (exchanges s2))).
  destruct (generateContent w _ _ _ _); now split.
Qed.

Lemma stable_fetching {B} (oracle : nat -> request -> fetch_result B)
    (tag : request -> fetch_result B -> exchange) (rq : request) :
  (forall n n' rq, oracle n rq = oracle n' rq) ->
  stable (fetching w oracle tag rq).
Proof.
  intros Hdet s1 s2 H. unfold fetching.
  rewrite (Hdet (List.length (exchanges s1)) (List.length (exchanges s2))).
  destruct (oracle _ rq); now split.
Qed.

(** Stability follows the shape of the code. *)
Ltac stability :=
  repeat first
    [ apply stable_ret
    | apply stable_throw
    | apply stable_substring_of
    | apply stable_json_of
    | apply stable_generate
    | apply stable_fetching; apply upstream
    | apply stable_bind; [| intro]
    | apply stable_try_catch; [| intro]
    | apply stable_if
    | match goal with
      | |- stable (match ?x with _ => _ end) => destruct x
      end ].

Lemma stable_callGemini (prompt type : jsstring) : stable (_callGemini w prompt type).
Proof. unfold _callGemini. stability. Qed.

Lemma stable_analyze (text : option jsstring) :
  stable (_analyzeWithNaturalLanguage w cfg text).
Proof. unfold _analyzeWithNaturalLanguage. stability. Qed.

Lemma stable_summarizeWithHuggingFace (text : option jsstring) (type : jsstring) :
  stable (_summarizeWithHuggingFace w cfg text type).
Proof. unfold _summarizeWithHuggingFace. stability. Qed.

Lemma stable_summarizeDocument (this : LegalAIService)
    (documentText summaryType summaryLength : option jsstring) :
  stable (summarizeDocument w cfg this documentText summaryType summaryLength).
Proof.
  unfold summarizeDocument, _buildSummarizationPrompt. cbv zeta.
  repeat first
    [ apply stable_callGemini
    | apply stable_analyze
    | apply stable_summarizeWithHuggingFace
    | progress stability ].
Qed.


End Deterministic.

(** *** The annotation of translateText *)

(** C4, as the code has it.  When the translation service answers with
    a text made of [t], one annotation

      [Legal entities: ... ]

    written on one line with no closing bracket inside, and [u], where
    [t] followed by [u] does not contain 'Legal entities:', then
    translateText returns [t] followed by [u], trimmed, and the returned
    string does not contain 'Legal entities:'. *)
Theorem annotation_removed (this : LegalAIService)
    (text sourceLang targetLang : option jsstring) (s : State)
    (rq : request) (status : nat) (data : translate_body) (t b u : jsstring) :
  In (XTranslate rq (Response status (inr data)))
     (made s (snd (translateText w cfg this text sourceLang targetLang s))) ->
  ok status = true ->
  translated data = Some (t ++ annotation_head ++ b ++ close_bracket :: u) ->
  Forall StringFacts.inside b ->
  includes (js "Legal entities:") (t ++ u) = false ->
  fst (translateText w cfg this text sourceLang targetLang s)
  = Return (VStr (trim (t ++ u)))
  /\ includes (js "Legal entities:") (trim (t ++ u)) = false.
Proof.
  intros Hin Hok Hdata Hb Hfree.
  split; [| now apply StringFacts.trim_keeps_absent].
  pose proof (translateText_run this text sourceLang targetLang s) as H. by_run H.
  - exfalso. eapply secondary_not_primary; eauto.
  - pose proof (primary_is_last _ _ _ Hsec Hin eq_refl) as Hx.
    injection Hx as _ <-. cbn [translation_or]. rewrite Hok, Hdata.
    rewrite StringFacts.remove_annotations_one; try assumption.
    + reflexivity.
    + exact (StringFacts.includes_left _ _ _ Hfree).
    + exact (StringFacts.includes_right _ _ _ Hfree).
Qed.

(** *** Every run of an operation, in short *)

(** The number of calls a trace makes to the model or to the
    translation service. *)
Definition primary_calls (tr : list exchange) : nat :=
  List.length (filter is_primary tr).

Lemma primary_calls_secondary (tr : list exchange) :
  secondary tr -> primary_calls tr = 0.
Proof.
  unfold primary_calls. induction 1 as [| x tr Hx _ IH]; [reflexivity |].
  cbn [filter]. rewrite Hx. exact IH.
Qed.

Lemma primary_calls_then (tr : list exchange) (x : exchange) :
  secondary tr -> primary_calls (tr ++ [x]) <= 1.
Proof.
  intro H. unfold primary_calls. rewrite filter_app, length_app.
  fold (primary_calls tr). rewrite (primary_calls_secondary tr H).
  cbn [filter]. destruct (is_primary x); cbn; lia.
Qed.

(** A computation that never throws, keeps the model handle, and calls
    the model or the translation service at most once. *)
Definition settled (m : M value) : Prop :=
  forall s,
    exists v s' tr,
      m s = (Return v, s') /\ extends s s' tr /\ primary_calls tr <= 1.

Ltac settled_by H :=
  let s' := fresh "s'" in
  let tr := fresh "tr" in
  let Hsec := fresh "Hsec" in
  destruct H as (s' & tr & Hsec & H);
  cbv zeta in H;
  destruct H as [H | H];
  repeat match type of H with
         | ex _ => let v := fresh "v" in destruct H as [v H]
         end;
  repeat match goal with
         | K : _ /\ _ |- _ => destruct K
         | K : ex _ |- _ => destruct K
         end;
  match goal with
  | K : ?m = (Return ?v, ?st), E : extends _ ?st ?t |- _ =>
      exists v, st, t; split; [exact K | split; [exact E |]]
  end;
  first [ rewrite primary_calls_secondary by assumption; lia
        | apply primary_calls_then; assumption ].

Lemma askLegalQuestion_settled (this : LegalAIService)
    (question documentContext : option jsstring) :
  settled (askLegalQuestion w cfg this question documentContext).
Proof.
  intro s. pose proof (askLegalQuestion_run this question documentContext s) as H.
  settled_by H.
Qed.

Lemma summarizeDocument_settled (this : LegalAIService)
    (documentText summaryType summaryLength : option jsstring) :
  settled (summarizeDocument w cfg this documentText summaryType summaryLength).
Proof.
  intro s.
  pose proof (summarizeDocument_run this documentText summaryType summaryLength s) as H.
  settled_by H.
Qed.

Lemma translateText_settled (this : LegalAIService)
    (text sourceLang targetLang : option jsstring) :
  settled (translateText w cfg this text sourceLang targetLang).
Proof.
  intro s. pose proof (translateText_run this text sourceLang targetLang s) as H.
  settled_by H.
Qed.

Lemma performSemanticSearch_settled (this : LegalAIService)
    (query documentText : option jsstring) :
  settled (performSemanticSearch w this query documentText).
Proof.
  intro s. pose proof (performSemanticSearch_run this query documentText s) as H.
  settled_by H.
Qed.

Lemma compareDocuments_settled (this : LegalAIService)
    (doc1Text doc2Text : option jsstring) :
  settled (compareDocuments w this doc1Text doc2Text).
Proof.
  intro s. pose proof (compareDocuments_run this doc1Text doc2Text s) as H.
  settled_by H.
Qed.

Lemma assessLegalRisk_settled (this : LegalAIService) (documentText : option jsstring) :
  settled (assessLegalRisk w cfg this documentText).
Proof.
  intro s. pose proof (assessLegalRisk_run this documentText s) as H.
  settled_by H.
Qed.

Lemma is_case_true (a : option jsstring) (k : jsstring) :
  is_case a k = true -> a = Some k.
Proof.
  destruct a as [name|]; cbn [is_case]; [| discriminate].
  unfold str_eqb. destruct (str_eq_dec name k); [now intros; subst | discriminate].
Qed.

(** The switch: whichever case is taken, the model handle is kept and
    at most one primary call is made; the six operations do not throw. *)
Lemma dispatch_run (l : LegalAIService) (a : option jsstring) (p : Params) (s : State) :
  exists c s' tr,
    dispatch w cfg l a p s = (c, s')
    /\ extends s s' tr
    /\ primary_calls tr <= 1
    /\ (forall name, a = Some name -> In name operations -> exists v, c = Return v).
Proof.
  assert (Hop : forall m : M value,
             settled m ->
             exists c s' tr,
               m s = (c, s') /\ extends s s' tr /\ primary_calls tr <= 1
               /\ (forall name : jsstring,
                      a = Some name -> In name operations -> exists v, c = Return v)).
  { intros m Hm. destruct (Hm s) as (v & s' & tr & Hrun & Hext & Hn).
    exists (Return v). exists s'. exists tr.
    split; [exact Hrun |]. split; [exact Hext |]. split; [exact Hn |].
    intros name _ _. exists v. reflexivity. }
  unfold dispatch.
  destruct (is_case a (js "askLegalQuestion")) eqn:E1;
    [apply Hop, askLegalQuestion_settled |].
  destruct (is_case a (js "summarizeDocument")) eqn:E2;
    [apply Hop, summarizeDocument_settled |].
  destruct (is_case a (js "translateText")) eqn:E3;
    [apply Hop, translateText_settled |].
  destruct (is_case a (js "performSemanticSearch")) eqn:E4;
    [apply Hop, performSemanticSearch_settled |].
  destruct (is_case a (js "compareDocuments")) eqn:E5;
    [apply Hop, compareDocuments_settled |].
  destruct (is_case a (js "assessLegalRisk")) eqn:E6;
    [apply Hop, assessLegalRisk_settled |].
  assert (Hnot : forall name, a = Some name -> In name operations -> False).
  { intros name -> Hin. cbn [is_case] in *. unfold operations in Hin. cbn [In] in Hin.
    destruct Hin as [<- | [<- | [<- | [<- | [<- | [<- | []]]]]]];
      rewrite str_eqb_refl in *; discriminate. }
  destruct (is_case a (js "healthCheck")).
  - unfold bind, timestamp, ret. eexists _, s, []. split; [reflexivity |].
    split; [apply extends_refl |]. split; [cbn; lia |].
    intros name Ha Hin. destruct (Hnot name Ha Hin).
  - unfold throw. eexists _, s, []. split; [reflexivity |].
    split; [apply extends_refl |]. split; [cbn; lia |].
    intros name Ha Hin. destruct (Hnot name Ha Hin).
Qed.

(** The [try] block of the handler. *)
Lemma serve_run (req : Req) (s : State) :
  exists c s' tr,
    serve w cfg req s = (c, s')
    /\ exchanges s' = exchanges s ++ tr
    /\ primary_calls tr <= 1
    /\ (forall m, model s = Some m -> model s' = Some m)
    /\ (ready s ->
        forall b name,
          body req = Some b -> action b = Some name -> In name operations ->
          exists v, c = Return v).
Proof.
  unfold serve, bind.
  assert (Hgo : forall s1,
             exchanges s1 = exchanges s ->
             (forall m, model s = Some m -> model s1 = Some m) ->
             exists c s' tr,
               match body req with
               | Some b => dispatch w cfg (new_LegalAIService cfg) (action b) (params b)
               | None => throw (type_error w (js "action"))
               end s1 = (c, s')
               /\ exchanges s' = exchanges s ++ tr
               /\ primary_calls tr <= 1
               /\ (forall m, model s = Some m -> model s' = Some m)
               /\ (ready s ->
                   forall b name,
                     body req = Some b -> action b = Some name -> In name operations ->
                     exists v, c = Return v)).
  { intros s1 Hex Hmodel. destruct (body req) as [b0 |].
    - destruct (dispatch_run (new_LegalAIService cfg) (action b0) (params b0) s1)
        as (c & s' & tr & Hrun & [Hm He] & Hn & Hv).
      exists c. exists s'. exists tr. split; [exact Hrun |]. split; [now rewrite He, Hex |].
      split; [exact Hn |]. split; [intros m Hs; rewrite Hm; auto |].
      intros _ b name Hb Ha Hin. injection Hb as <-. eauto.
    - unfold throw. eexists _, s1, []. split; [reflexivity |].
      split; [now rewrite Hex, app_nil_r |]. split; [cbn; lia |].
      split; [exact Hmodel |]. intros _ b name Hb. discriminate. }
  destruct (model s) as [m0 |] eqn:Hmodel.
  - cbn [ret]. apply Hgo; [reflexivity | intros m Hs; congruence].
  - unfold initializeGemini.
    destruct (configured (GEMINI_KEY cfg)) eqn:Hk; cbn [negb].
    + apply Hgo; [reflexivity | discriminate].
    + eexists _, s, []. split; [reflexivity |].
      split; [now rewrite app_nil_r |]. split; [cbn; lia |].
      split; [intros m Hs; discriminate Hs |].
      intros [Hr | Hr]; congruence.
Qed.

(** Whatever happens upstream, a request for one of the six operations
    that reaches the switch is answered with status 200 and an
    envelope with success true. *)
Theorem operation_always_succeeds (req : Req) (b : Body) (name : jsstring) (s : State) :
  method req <> js "OPTIONS" ->
  body req = Some b ->
  action b = Some name ->
  In name operations ->
  ready s ->
  exists result,
    fst (handler w cfg req s)
    = {| statusCode := 200;
         headers := cors_headers;
         sent := Some (VObj [(js "success", VBool true);
                             (js "data", result);
                             (js "timestamp",
                              VStr (toISOString w (now (snd (handler w cfg req s)))))]) |}.
Proof.
  intros Hm Hb Ha Hin Hr. rewrite (handler_responds req s Hm).
  destruct (serve_run req s) as (c & s' & tr & Hrun & _ & _ & _ & Hv).
  destruct (Hv Hr b name Hb Ha Hin) as [v ->]. rewrite Hrun.
  exists v. reflexivity.
Qed.

(** No request is retried upstream: handling a request, whatever it
    is, calls the model or the translation service at most once. *)
Theorem at_most_one_primary_call (req : Req) (s : State) :
  primary_calls (made s (snd (handler w cfg req s))) <= 1.
Proof.
  unfold handler. destruct (str_eqb (method req) (js "OPTIONS")).
  - cbn [snd]. unfold made. rewrite skipn_all. cbn. lia.
  - destruct (serve_run req s) as (c & s' & tr & Hrun & Hex & Hn & _).
    rewrite Hrun. assert (Hmade : made s s' = tr).
    { unfold made. rewrite Hex, skipn_app, skipn_all, Nat.sub_diag. reflexivity. }
    destruct c; cbn [snd]; now rewrite Hmade.
Qed.

(** Once the model handle is set, no request replaces it. *)
Theorem model_handle_kept (req : Req) (s : State) (m : GenerativeModel) :
  model s = Some m ->
  model (snd (handler w cfg req s)) = Some m.
Proof.
  intro Hs. unfold handler. destruct (str_eqb (method req) (js "OPTIONS")); [exact Hs |].
  destruct (serve_run req s) as (c & s' & tr & Hrun & _ & _ & Hm & _).
  rewrite Hrun. destruct c; cbn [snd]; auto.
Qed.

(** *** Answers taken as they come *)

(** Unlike askLegalQuestion and summarizeDocument, compareDocuments
    returns the answer of the model as it is, also when it is empty. *)
Theorem compareDocuments_verbatim (this : LegalAIService)
    (doc1Text doc2Text : option jsstring) (s : State) (p answer : jsstring) :
  In (XGenerate p (inr answer))
     (made s (snd (compareDocuments w this doc1Text doc2Text s))) ->
  fst (compareDocuments w this doc1Text doc2Text s) = Return (VStr answer).
Proof.
  intro Hin.
  pose proof (compareDocuments_run this doc1Text doc2Text s) as H. by_run H.
  - exfalso. eapply secondary_not_primary; eauto.
  - pose proof (primary_is_last _ _ _ Hsec Hin eq_refl) as Hx.
    injection Hx as _ <-. reflexivity.
Qed.

(** A translation that does not hold the phrase of the annotation is
    returned as it came, trimmed. *)
Theorem translation_returned_trimmed (this : LegalAIService)
    (text sourceLang targetLang : option jsstring) (s : State)
    (rq : request) (status : nat) (data : translate_body) (t : jsstring) :
  In (XTranslate rq (Response status (inr data)))
     (made s (snd (translateText w cfg this text sourceLang targetLang s))) ->
  ok status = true ->
  translated data = Some t ->
  includes (js "Legal entities:") t = false ->
  fst (translateText w cfg this text sourceLang targetLang s) = Return (VStr (trim t)).
Proof.
  intros Hin Hok Hdata Hfree.
  pose proof (translateText_run this text sourceLang targetLang s) as H. by_run H.
  - exfalso. eapply secondary_not_primary; eauto.
  - pose proof (primary_is_last _ _ _ Hsec Hin eq_refl) as Hx.
    injection Hx as _ <-. cbn [translation_or]. rewrite Hok, Hdata.
    now rewrite (StringFacts.remove_annotations_without_phrase t Hfree).
Qed.

(** Any other answer of the translation service (a status outside
    2xx, a body that cannot be read, a body without a translated text)
    gives the fallback text. *)
Theorem translation_unusable (this : LegalAIService)
    (text sourceLang targetLang : option jsstring) (s : State)
    (rq : request) (status : nat) (json : error + translate_body) :
  In (XTranslate rq (Response status json))
     (made s (snd (translateText w cfg this text sourceLang targetLang s))) ->
  ok status = false
  \/ (exists e, json = inl e)
  \/ (exists data, json = inr data /\ translated data = None) ->
  fst (translateText w cfg this text sourceLang targetLang s)
  = Return (VStr (_getFallbackTranslation text sourceLang targetLang)).
Proof.
  intros Hin Hbad.
  pose proof (translateText_run this text sourceLang targetLang s) as H. by_run H.
  - exfalso. eapply secondary_not_primary; eauto.
  - pose proof (primary_is_last _ _ _ Hsec Hin eq_refl) as Hx.
    injection Hx as _ <-. cbn [translation_or].
    destruct Hbad as [Hok | [[e ->] | (data & -> & Hnone)]].
    + rewrite Hok. now destruct json.
    + reflexivity.
    + rewrite Hnone. now destruct (ok status).
Qed.

(** *** How much of a document is read *)

Lemma firstn_shorter {A} (n m : nat) (l l' : list A) :
  n <= m -> firstn m l = firstn m l' -> firstn n l = firstn n l'.
Proof.
  intros Hle H.
  rewrite <- (Nat.min_l n m Hle), <- !firstn_firstn. now rewrite H.
Qed.

(** compareDocuments reads the first 2000 units of each document and
    performSemanticSearch the first 3000 of the document: two requests
    that agree up to there are handled in the same way. *)
Theorem documents_truncated (this : LegalAIService) (s : State)
    (d1 d1' d2 d2' : jsstring) (query : option jsstring) :
  (firstn 2000 d1 = firstn 2000 d1' ->
   firstn 2000 d2 = firstn 2000 d2' ->
   compareDocuments w this (Some d1) (Some d2) s
   = compareDocuments w this (Some d1') (Some d2') s)
  /\
  (firstn 3000 d1 = firstn 3000 d1' ->
   performSemanticSearch w this query (Some d1) s
   = performSemanticSearch w this query (Some d1') s).
Proof.
  split.
  - intros H1 H2. unfold compareDocuments, substring_of, substring0. now rewrite H1, H2.
  - intros H1. unfold performSemanticSearch, _buildSearchPrompt, substring_of, substring0,
      _searchWithNaturalLanguage, _searchLegalEntities.
    now rewrite H1.
Qed.

(** summarizeDocument reads the first 5000 units of the document, and
    assessLegalRisk the first 10000. *)
Theorem long_documents_truncated (this : LegalAIService) (s : State)
    (d d' : jsstring) (summaryType summaryLength : option jsstring) :
  (firstn 5000 d = firstn 5000 d' ->
   summarizeDocument w cfg this (Some d) summaryType summaryLength s
   = summarizeDocument w cfg this (Some d') summaryType summaryLength s)
  /\
  (firstn 10000 d = firstn 10000 d' ->
   assessLegalRisk w cfg this (Some d) s = assessLegalRisk w cfg this (Some d') s).
Proof.
  split; intro H.
  - assert (H4 : firstn 4000 d = firstn 4000 d')
      by (apply (firstn_shorter 4000 5000); [apply Nat.leb_le; vm_compute; reflexivity | exact H]).
    assert (H1 : firstn 1000 d = firstn 1000 d')
      by (apply (firstn_shorter 1000 5000); [apply Nat.leb_le; vm_compute; reflexivity | exact H]).
    unfold summarizeDocument, _buildSummarizationPrompt, _summarizeWithHuggingFace,
      substring_of, substring0.
    now rewrite H, H4, H1.
  - assert (H3 : firstn 3000 d = firstn 3000 d')
      by (apply (firstn_shorter 3000 10000); [apply Nat.leb_le; vm_compute; reflexivity | exact H]).
    unfold assessLegalRisk, _analyzeWithNaturalLanguage, substring_of, substring0.
    now rewrite H, H3.
Qed.

End Runs.

(** *** Sample worlds and requests *)

(** [Date.prototype.toISOString] for a time at or after the epoch, by
    the civil calendar. *)
Definition pad (width : nat) (n : N) : jsstring :=
  let digits := dec_N n in
  repeat 48%N (width - List.length digits) ++ digits.

Definition iso8601 (ms : Z) : jsstring :=
  let t := Z.to_N ms in
  let days := (t / 86400000)%N in
  let rest := (t mod 86400000)%N in
  let z := (days + 719468)%N in
  let era := (z / 146097)%N in
  let doe := (z - era * 146097)%N in
  let yoe := ((doe - doe / 1460 + doe / 36524 - doe / 146096) / 365)%N in
  let doy := (doe - (365 * yoe + yoe / 4 - yoe / 100))%N in
  let mp := ((5 * doy + 2) / 153)%N in
  let d := (doy - (153 * mp + 2) / 5 + 1)%N in
  let m := (if mp <? 10 then mp + 3 else mp - 9)%N in
  let y := (yoe + era * 400 + (if m <=? 2 then 1 else 0))%N in
  pad 4 y ++ js "-" ++ pad 2 m ++ js "-" ++ pad 2 d ++ js "T"
  ++ pad 2 (rest / 3600000) ++ js ":" ++ pad 2 ((rest / 60000) mod 60) ++ js ":"
  ++ pad 2 ((rest / 1000) mod 60) ++ js "." ++ pad 3 (rest mod 1000) ++ js "Z".

Definition engine_wording (what : jsstring) : jsstring :=
  js "Cannot read properties of undefined (reading '" ++ what ++ js "')".

(** The text a request asks to translate, read back from its body. *)
Definition asked_text (rq : request) : option jsstring :=
  match get (req_body rq) (js "q") with
  | VStr q => Some q
  | _ => None
  end.

(** A world in which the model completes every call with [answer], the
    language service finds [found], the translation service hands the
    text back as it came, and the summarisation model is out of reach. *)
Definition sample_world (answer : error + jsstring) (found : list entity) : World := {|
  generateContent := fun _ _ _ _ => answer;
  fetch_language := fun _ _ =>
    Response 200 (inr {| body_entities := Some found;
                         body_documentSentiment := None |});
  fetch_translate := fun _ rq =>
    Response 200 (inr {| body_data :=
                           Some {| translations :=
                                     Some [{| translatedText := asked_text rq |}] |} |});
  fetch_huggingface := fun _ _ => FetchRejected (mkError TypeError (js "fetch failed"));
  elapsed := fun _ => 250%Z;
  toISOString := iso8601;
  type_error_message := engine_wording;
  object_prototype := fun _ => None
|}.

Definition failing (msg : jsstring) : World := sample_world (inl (Error msg)) [].
Definition answering (answer : jsstring) : World := sample_world (inr answer) [].

Definition only_gemini : ApiConfig :=
  API_CONFIG (mkEnv (Some (js "g-key")) None None None None).

Definition every_key_env : Env :=
  mkEnv (Some (js "g-key")) (Some (js "t-key")) (Some (js "d-key"))
    (Some (js "n-key")) (Some (js "h-key")).

Definition every_key : ApiConfig := API_CONFIG every_key_env.

Definition no_key : Env := mkEnv None None None None None.

(** The state of a process that has just started, on 14 November 2023. *)
Definition fresh : State :=
  {| model := None; now := 1700000000000%Z; exchanges := [] |}.

Definition no_params : Params :=
  mkParams None None None None None None None None None None None.

Definition with_question (q : jsstring) : Params :=
  mkParams (Some q) None None None None None None None None None None.

Definition with_document (d : jsstring) : Params :=
  mkParams None None (Some d) None None None None None None None None.

Definition post (name : jsstring) (p : Params) : Req :=
  {| method := js "POST"; body := Some {| action := Some name; params := p |} |}.

(** The [data] of the envelope of a response. *)
Definition data_of (r : Res) : value :=
  match sent r with
  | Some envelope => get envelope (js "data")
  | None => VUndefined
  end.

Example iso8601_epoch : iso8601 0 = js "1970-01-01T00:00:00.000Z".
Proof. vm_compute. reflexivity. Qed.

Example iso8601_sample : iso8601 1700000000250 = js "2023-11-14T22:13:20.250Z".
Proof. vm_compute. reflexivity. Qed.

Example iso8601_leap_day : iso8601 1709164800000 = js "2024-02-29T00:00:00.000Z".
Proof. vm_compute. reflexivity. Qed.

(** *** C1 *)

Lemma upstream_failure_masked_witness :
  fst (handler (failing (js "fetch failed")) only_gemini
         (post (js "askLegalQuestion") (with_question (js "What is a tort?"))) fresh)
  = {| statusCode := 200;
       headers := cors_headers;
       sent := Some (success_envelope
                       (VStr (_getFallbackLegalResponse (Some (js "What is a tort?"))))
                       (js "2023-11-14T22:13:20.250Z")) |}.
Proof.
  apply (upstream_failure_masked (failing (js "fetch failed")) only_gemini
           (post (js "askLegalQuestion") (with_question (js "What is a tort?")))
           {| action := Some (js "askLegalQuestion");
              params := with_question (js "What is a tort?") |}
           (js "askLegalQuestion") fresh
           (XGenerate (systemPrompt ++ nl ++ nl
                       ++ _buildLegalPrompt (Some (js "What is a tort?")) [])
              (inl (Error (js "fetch failed"))))
           (Error (js "fetch failed"))).
  - vm_compute. discriminate.
  - reflexivity.
  - reflexivity.
  - left. reflexivity.
  - right. reflexivity.
  - vm_compute. left. reflexivity.
  - reflexivity.
Defined.

(** C1 as stated fails for assessLegalRisk: the payload it returns when
    the model fails is not fixed beforehand.  On the same request, two
    failures of the model give two payloads, each carrying the message
    of its failure to the caller, under status 200. *)
Lemma risk_payload_carries_failure :
  let req := post (js "assessLegalRisk") (with_document (js "The lessee shall pay.")) in
  let timed_out := fst (handler (failing (js "deadline exceeded")) only_gemini req fresh) in
  let refused := fst (handler (failing (js "quota exhausted")) only_gemini req fresh) in
  statusCode timed_out = 200
  /\ statusCode refused = 200
  /\ data_of timed_out
     = VObj [(js "error", VStr (js "Risk assessment failed"));
             (js "details", VStr (js "Gemini API error: deadline exceeded"))]
  /\ data_of refused
     = VObj [(js "error", VStr (js "Risk assessment failed"));
             (js "details", VStr (js "Gemini API error: quota exhausted"))]
  /\ data_of timed_out <> data_of refused.
Proof.
  vm_compute. repeat split. discriminate.
Qed.

(** *** C2, C6 *)




(** *** C3 *)

(** C3, as the code has it.  Without a non-empty GEMINI_API_KEY the
    module still loads and listens, and the absence shows per request:
    every request other than an OPTIONS preflight, whatever its action,
    is answered with status 500 and the envelope with success false and
    the error 'GEMINI_API_KEY environment variable is required'.  The
    process is left as it was, so this holds for every request of any
    sequence. *)
Theorem missing_key_fails_each_request (w : World) (env : Env) (boot_time : Z)
    (reqs : list Req) :
  configured (GEMINI_API_KEY env) = false ->
  Forall (fun req => method req <> js "OPTIONS") reqs ->
  exists cfg s,
    startup env boot_time = Listening cfg s
    /\ handle_all w cfg reqs s
       = (map (fun _ =>
                 {| statusCode := 500;
                    headers := cors_headers;
                    sent := Some (VObj [
                      (js "success", VBool false);
                      (js "error",
                       VStr (js "GEMINI_API_KEY environment variable is required"));
                      (js "timestamp", VStr (toISOString w boot_time))]) |}) reqs,
          s).
Proof.
  intros Hk Hall. eexists _, _. split; [reflexivity |].
  apply (handle_all_without_key w (API_CONFIG env) reqs
           {| model := None; now := boot_time; exchanges := [] |});
    [exact Hk | reflexivity | exact Hall].
Qed.

Lemma missing_key_fails_each_request_witness :
  exists cfg s,
    startup no_key 1700000000000 = Listening cfg s
    /\ handle_all (answering (js "unused")) cfg
         [post (js "healthCheck") no_params;
          post (js "askLegalQuestion") (with_question (js "What is a tort?"))] s
       = (map (fun _ =>
                 {| statusCode := 500;
                    headers := cors_headers;
                    sent := Some (VObj [
                      (js "success", VBool false);
                      (js "error",
                       VStr (js "GEMINI_API_KEY environment variable is required"));
                      (js "timestamp",
                       VStr (toISOString (answering (js "unused")) 1700000000000))]) |})
              [post (js "healthCheck") no_params;
               post (js "askLegalQuestion") (with_question (js "What is a tort?"))],
          s).
Proof.
  apply (missing_key_fails_each_request (answering (js "unused")) no_key 1700000000000
           [post (js "healthCheck") no_params;
            post (js "askLegalQuestion") (with_question (js "What is a tort?"))]).
  - reflexivity.
  - repeat constructor; vm_compute; discriminate.
Defined.

(** C3 as stated fails: with no key at all in the environment the
    module does not fail to load; it listens, and a request is answered
    with an error envelope. *)
Lemma missing_key_not_fatal_at_startup :
  (forall e, startup no_key 1700000000000 <> Crashed e)
  /\ exists cfg s,
       startup no_key 1700000000000 = Listening cfg s
       /\ fst (handler (answering (js "unused")) cfg (post (js "healthCheck") no_params) s)
          = {| statusCode := 500;
               headers := cors_headers;
               sent := Some (VObj [
                 (js "success", VBool false);
                 (js "error",
                  VStr (js "GEMINI_API_KEY environment variable is required"));
                 (js "timestamp", VStr (js "2023-11-14T22:13:20.000Z"))]) |}.
Proof.
  split; [intros e H; discriminate H |].
  eexists _, _. split; [reflexivity |]. vm_compute. reflexivity.
Qed.

(** *** C7, C10, C9 *)

(** A process whose model handle was set by an earlier request. *)
Definition warm : State :=
  {| model := Some {| gm_apiKey := js "g-key"; gm_model := js "gemini-1.5-pro" |};
     now := 1700000000000%Z;
     exchanges := [] |}.

Definition value_of (c : completion value) : value :=
  match c with
  | Return v => v
  | Throw _ => VUndefined
  end.

(** The prompt of the first call to the model in a trace. *)
Fixpoint first_prompt (tr : list exchange) : jsstring :=
  match tr with
  | [] => []
  | XGenerate p _ :: _ => p
  | _ :: rest => first_prompt rest
  end.

Definition lease : option jsstring := Some (js "The lessee shall pay rent monthly.").

Lemma operation_results_witness :
  exists analysis,
    (analysis = VNull \/ exists a, analysis = language_assessment a)
    /\ fst (assessLegalRisk (answering (js "Risk level: Low")) only_gemini
              (new_LegalAIService only_gemini) lease warm)
       = Return (VObj [(js "nlpAnalysis", analysis);
                       (js "aiAssessment", VStr (js "Risk level: Low"));
                       (js "timestamp",
                        VStr (toISOString (answering (js "Risk level: Low"))
                                (now (snd (assessLegalRisk
                                             (answering (js "Risk level: Low"))
                                             only_gemini
                                             (new_LegalAIService only_gemini)
                                             lease warm)))))]).
Proof.
  apply (proj1 (operation_results (answering (js "Risk level: Low")) only_gemini
                  (new_LegalAIService only_gemini))
           lease warm
           (first_prompt (exchanges (snd (assessLegalRisk
                                            (answering (js "Risk level: Low"))
                                            only_gemini
                                            (new_LegalAIService only_gemini)
                                            lease warm))))
           (js "Risk level: Low")).
  vm_compute. left. reflexivity.
Defined.

(** C7 as stated fails on the names of the entries: the record of a
    successful assessLegalRisk has the entries nlpAnalysis, aiAssessment
    and timestamp, and none called analysis or assessment. *)
Lemma risk_record_entries :
  let result :=
    value_of (fst (assessLegalRisk (answering (js "Risk level: Low")) only_gemini
                     (new_LegalAIService only_gemini) lease warm)) in
  keys result = [js "nlpAnalysis"; js "aiAssessment"; js "timestamp"]
  /\ keys result <> [js "analysis"; js "assessment"; js "timestamp"]
  /\ get result (js "analysis") = VUndefined
  /\ get result (js "assessment") = VUndefined
  /\ get result (js "aiAssessment") = VStr (js "Risk level: Low")
  /\ get result (js "timestamp") = VStr (js "2023-11-14T22:13:20.250Z").
Proof.
  vm_compute. repeat split. discriminate.
Qed.

Lemma empty_answer_falls_back_witness :
  fst (askLegalQuestion (answering []) only_gemini (new_LegalAIService only_gemini)
         (Some (js "What is a tort?")) None warm)
  = Return (VStr (_getFallbackLegalResponse (Some (js "What is a tort?"))))
  /\ fst (summarizeDocument (answering []) only_gemini (new_LegalAIService only_gemini)
            lease None None warm)
     = Return (VStr (_getFallbackSummary (js "comprehensive") (js "medium"))).
Proof.
  split.
  - apply (proj1 (empty_answer_falls_back (answering []) only_gemini
                    (new_LegalAIService only_gemini)
                    (Some (js "What is a tort?")) None lease None None warm
                    (first_prompt (exchanges (snd (askLegalQuestion (answering [])
                                                     only_gemini
                                                     (new_LegalAIService only_gemini)
                                                     (Some (js "What is a tort?"))
                                                     None warm)))))).
    vm_compute. left. reflexivity.
  - apply (proj2 (empty_answer_falls_back (answering []) only_gemini
                    (new_LegalAIService only_gemini)
                    (Some (js "What is a tort?")) None lease None None warm
                    (first_prompt (exchanges (snd (summarizeDocument (answering [])
                                                     only_gemini
                                                     (new_LegalAIService only_gemini)
                                                     lease None None warm)))))).
    vm_compute. left. reflexivity.
Defined.

Lemma sample_world_deterministic (answer : error + jsstring) (found : list entity) :
  deterministic (sample_world answer found).
Proof. repeat split. Qed.


(** *** C4 *)

Definition acme : entity :=
  {| ent_name := Some (js "Acme Corp"); ent_type := Some (js "ORGANIZATION") |}.

(** A party whose name runs over two lines of the document. *)
Definition broken_name : entity :=
  {| ent_name := Some (js "Acme" ++ nl ++ js "Corp"); ent_type := Some (js "ORGANIZATION") |}.

Definition agreement : jsstring :=
  js "This agreement is made in Pune on the first day of March 2024 between the lessor and the lessee named below.".

Definition charter : jsstring :=
  js "Legal entities: the lessor and the lessee named below are the only parties to this agreement, made in Pune.".

Definition english : option jsstring := Some (js "en").

(** The body with which the sample translation service answers [q]. *)
Definition handed_back (q : jsstring) : translate_body :=
  {| body_data := Some {| translations := Some [{| translatedText := Some q |}] |} |}.

Lemma annotation_removed_witness :
  fst (translateText (sample_world (inr []) [acme]) every_key
         (new_LegalAIService every_key) (Some agreement) english english warm)
  = Return (VStr (trim ((agreement ++ nl ++ nl) ++ [])))
  /\ includes (js "Legal entities:") (trim ((agreement ++ nl ++ nl) ++ [])) = false.
Proof.
  apply (annotation_removed (sample_world (inr []) [acme]) every_key
           (new_LegalAIService every_key) (Some agreement) english english warm
           (translate_request every_key (Some (agreement ++ annotation [acme]))
              english english)
           200 (handed_back (agreement ++ annotation [acme]))
           (agreement ++ nl ++ nl) (js " Acme Corp") []).
  - vm_compute. right. left. reflexivity.
  - reflexivity.
  - vm_compute. reflexivity.
  - repeat (constructor; [split; [vm_compute; discriminate | reflexivity] |]).
    constructor.
  - vm_compute. reflexivity.
Defined.

(** C4 as stated fails.  First, a text that itself contains 'Legal
    entities:' is sent with the annotation appended; the service hands
    it back, the annotation is removed, and the phrase of the text is
    still in what translateText returns.  Second, when the name of a
    party holds a line break the pattern does not match the annotation,
    which is returned whole. *)
Lemma phrase_survives_translation :
  let plain :=
    translateText (sample_world (inr []) [acme]) every_key
      (new_LegalAIService every_key) (Some charter) english english warm in
  let broken :=
    translateText (sample_world (inr []) [broken_name]) every_key
      (new_LegalAIService every_key) (Some agreement) english english warm in
  (In (XTranslate
         (translate_request every_key (Some (charter ++ annotation [acme]))
            english english)
         (Response 200 (inr (handed_back (charter ++ annotation [acme])))))
      (exchanges (snd plain))
   /\ fst plain = Return (VStr charter)
   /\ includes (js "Legal entities:") charter = true)
  /\
  (In (XTranslate
         (translate_request every_key (Some (agreement ++ annotation [broken_name]))
            english english)
         (Response 200 (inr (handed_back (agreement ++ annotation [broken_name])))))
      (exchanges (snd broken))
   /\ fst broken = Return (VStr (agreement ++ annotation [broken_name]))
   /\ includes (js "Legal entities:") (agreement ++ annotation [broken_name]) = true).
Proof.
  vm_compute. repeat split; right; left; reflexivity.
Qed.

(** *** Further properties of the backend, at sample requests *)

Lemma operation_always_succeeds_witness :
  exists result,
    fst (handler (failing (js "fetch failed")) every_key
           (post (js "summarizeDocument") (with_document (js "The lessee shall pay.")))
           fresh)
    = {| statusCode := 200;
         headers := cors_headers;
         sent := Some (VObj [
           (js "success", VBool true);
           (js "data", result);
           (js "timestamp",
            VStr (toISOString (failing (js "fetch failed"))
                    (now (snd (handler (failing (js "fetch failed")) every_key
                                 (post (js "summarizeDocument")
                                    (with_document (js "The lessee shall pay.")))
                                 fresh)))))]) |}.
Proof.
  apply (operation_always_succeeds (failing (js "fetch failed")) every_key
           (post (js "summarizeDocument") (with_document (js "The lessee shall pay.")))
           {| action := Some (js "summarizeDocument");
              params := with_document (js "The lessee shall pay.") |}
           (js "summarizeDocument") fresh).
  - vm_compute. discriminate.
  - reflexivity.
  - reflexivity.
  - right. left. reflexivity.
  - right. reflexivity.
Defined.

Lemma model_handle_kept_witness :
  model (snd (handler (answering (js "A tort is a civil wrong.")) every_key
                (post (js "askLegalQuestion") (with_question (js "What is a tort?")))
                warm))
  = Some {| gm_apiKey := js "g-key"; gm_model := js "gemini-1.5-pro" |}.
Proof.
  apply (model_handle_kept (answering (js "A tort is a civil wrong.")) every_key
           (post (js "askLegalQuestion") (with_question (js "What is a tort?"))) warm).
  reflexivity.
Defined.

Lemma compareDocuments_verbatim_witness :
  fst (compareDocuments (answering []) (new_LegalAIService only_gemini)
         (Some (js "first")) (Some (js "second")) warm)
  = Return (VStr []).
Proof.
  apply (compareDocuments_verbatim (answering []) (new_LegalAIService only_gemini)
           (Some (js "first")) (Some (js "second")) warm
           (first_prompt (exchanges (snd (compareDocuments (answering [])
                                            (new_LegalAIService only_gemini)
                                            (Some (js "first")) (Some (js "second"))
                                            warm))))
           []).
  vm_compute. left. reflexivity.
Defined.

Lemma translation_returned_trimmed_witness :
  fst (translateText (sample_world (inr []) []) every_key (new_LegalAIService every_key)
         (Some (js "  rent is due  ")) english english warm)
  = Return (VStr (trim (js "  rent is due  "))).
Proof.
  apply (translation_returned_trimmed (sample_world (inr []) []) every_key
           (new_LegalAIService every_key) (Some (js "  rent is due  ")) english english
           warm
           (translate_request every_key (Some (js "  rent is due  ")) english english)
           200 (handed_back (js "  rent is due  ")) (js "  rent is due  ")).
  - vm_compute. left. reflexivity.
  - reflexivity.
  - reflexivity.
  - vm_compute. reflexivity.
Defined.

(** A world whose translation service answers every request with the
    status 403 and no readable body. *)
Definition forbidding : World := {|
  generateContent := fun _ _ _ _ => inr [];
  fetch_language := fun _ _ => FetchRejected (mkError TypeError (js "fetch failed"));
  fetch_translate := fun _ _ => Response 403 (inl (mkError PlainError (js "Unexpected token")));
  fetch_huggingface := fun _ _ => FetchRejected (mkError TypeError (js "fetch failed"));
  elapsed := fun _ => 250%Z;
  toISOString := iso8601;
  type_error_message := engine_wording;
  object_prototype := fun _ => None
|}.

Lemma translation_unusable_witness :
  fst (translateText forbidding every_key (new_LegalAIService every_key)
         (Some (js "rent is due")) english english warm)
  = Return (VStr (_getFallbackTranslation (Some (js "rent is due")) english english)).
Proof.
  apply (translation_unusable forbidding every_key (new_LegalAIService every_key)
           (Some (js "rent is due")) english english warm
           (translate_request every_key (Some (js "rent is due")) english english)
           403 (inl (mkError PlainError (js "Unexpected token")))).
  - vm_compute. left. reflexivity.
  - left. reflexivity.
Defined.

(** Two documents that differ only after their first [n] units. *)
Definition padded (n : nat) (last : N) : jsstring := repeat 97%N n ++ [last].

Lemma documents_truncated_witness :
  compareDocuments (answering (js "alike")) (new_LegalAIService only_gemini)
    (Some (padded 2000 120)) (Some (padded 2000 120)) warm
  = compareDocuments (answering (js "alike")) (new_LegalAIService only_gemini)
      (Some (padded 2000 121)) (Some (padded 2000 122)) warm
  /\ performSemanticSearch (answering (js "alike")) (new_LegalAIService only_gemini)
       (Some (js "rent")) (Some (padded 3000 120)) warm
     = performSemanticSearch (answering (js "alike")) (new_LegalAIService only_gemini)
         (Some (js "rent")) (Some (padded 3000 121)) warm.
Proof.
  split.
  - apply (proj1 (documents_truncated (answering (js "alike"))
                    (new_LegalAIService only_gemini) warm
                    (padded 2000 120) (padded 2000 121)
                    (padded 2000 120) (padded 2000 122) None));
      vm_compute; reflexivity.
  - apply (proj2 (documents_truncated (answering (js "alike"))
                    (new_LegalAIService only_gemini) warm
                    (padded 3000 120) (padded 3000 121) [] []
                    (Some (js "rent"))));
      vm_compute; reflexivity.
Defined.

Lemma long_documents_truncated_witness :
  summarizeDocument (answering (js "a lease")) every_key (new_LegalAIService every_key)
    (Some (padded 5000 120)) None None warm
  = summarizeDocument (answering (js "a lease")) every_key (new_LegalAIService every_key)
      (Some (padded 5000 121)) None None warm
  /\ assessLegalRisk (answering (js "low")) every_key (new_LegalAIService every_key)
       (Some (padded 10000 120)) warm
     = assessLegalRisk (answering (js "low")) every_key (new_LegalAIService every_key)
         (Some (padded 10000 121)) warm.
Proof.
  split.
  - apply (proj1 (long_documents_truncated (answering (js "a lease")) every_key
                    (new_LegalAIService every_key) warm
                    (padded 5000 120) (padded 5000 121) None None));
      vm_compute; reflexivity.
  - apply (proj2 (long_documents_truncated (answering (js "low")) every_key
                    (new_LegalAIService every_key) warm
                    (padded 10000 120) (padded 10000 121) None None));
      vm_compute; reflexivity.
Defined.



End BackendFacts.

(** ** The page and the backend together *)

Module EndToEnd.

(** A field of a posted JSON body as the handler reads it: a string, or
    absent (an [undefined] entry is not serialised). *)
Definition field (posted : value) (k : jsstring) : option jsstring :=
  match get posted k with
  | VStr s => Some s
  | _ => None
  end.

(** The request the handler receives for a request the page sends. *)
Definition received (rq : request) : Backend.Req := {|
  Backend.method := js "POST";
  Backend.body := Some {|
    Backend.action := field (req_body rq) (js "action");
    Backend.params := {|
      Backend.question := field (req_body rq) (js "question");
      Backend.documentContext := field (req_body rq) (js "documentContext");
      Backend.documentText := field (req_body rq) (js "documentText");
      Backend.summaryType := field (req_body rq) (js "summaryType");
      Backend.summaryLength := field (req_body rq) (js "summaryLength");
      Backend.text := field (req_body rq) (js "text");
      Backend.sourceLang := field (req_body rq) (js "sourceLang");
      Backend.targetLang := field (req_body rq) (js "targetLang");
      Backend.query := field (req_body rq) (js "query");
      Backend.doc1Text := field (req_body rq) (js "doc1Text");
      Backend.doc2Text := field (req_body rq) (js "doc2Text")
    |}
  |}
|}.

(** What the [try] block of the handler runs for a request of the page,
    once the model is initialised. *)
Definition served (w : Backend.World) (cfg : Backend.ApiConfig) (rq : request)
  : Backend.M value :=
  match Backend.body (received rq) with
  | Some b =>
      Backend.dispatch w cfg (Backend.new_LegalAIService cfg)
        (Backend.action b) (Backend.params b)
  | None => Backend.throw (Error [])
  end.

(** A function of the page reaches an operation of the backend: it
    sends one request, and that request makes the handler run the
    operation. *)
Definition reaches (w : Backend.World) (cfg : Backend.ApiConfig)
    (call : Client.M value) (operation : Backend.M value) : Prop :=
  forall sent, exists rq,
    snd (call sent) = sent ++ [rq] /\ served w cfg rq = operation.

Lemma callServerless_reaches (w : Backend.World) (cfg : Backend.ApiConfig)
    (browser : Client.Browser) (action : jsstring) (params : list (jsstring * value))
    (operation : Backend.M value) :
  served w cfg (Client.serverless_request action params) = operation ->
  reaches w cfg (Client._callServerless browser action params) operation.
Proof.
  intros H sent. exists (Client.serverless_request action params). split; [| exact H].
  unfold Client._callServerless.
  destruct (Client.fetch browser _ _) as [e | status [e | data]];
    [reflexivity | destruct (negb (ok status)); reflexivity |].
  destruct (negb (ok status)); [reflexivity |].
  destruct (Client.unsuccessful data); reflexivity.
Qed.


(** The handler sends every failure envelope under status 500, and the
    page looks at the status first: when the backend reports a failure,
    what the caller on the page gets is the fixed error
    'Serverless AI API error', never the message of the backend. *)
Theorem backend_message_never_shown (w : Backend.World) (cfg : Backend.ApiConfig)
    (req : Backend.Req) (s : Backend.State) (envelope : value)
    (browser : Client.Browser) (action : jsstring) (params : list (jsstring * value))
    (sent : list request) (json : error + Client.Envelope) :
  Backend.sent (fst (Backend.handler w cfg req s)) = Some envelope ->
  get envelope (js "success") = VBool false ->
  Client.fetch browser (List.length sent) (Client.serverless_request action params)
  = Response (Backend.statusCode (fst (Backend.handler w cfg req s))) json ->
  fst (Client._callServerless browser action params sent)
  = Throw (Error (js "Serverless AI API error")).
Proof.
  intros Hsent Hfalse Hfetch.
  assert (Hstatus : Backend.statusCode (fst (Backend.handler w cfg req s)) = 500).
  { unfold Backend.handler in *.
    destruct (str_eqb (Backend.method req) (js "OPTIONS")); [discriminate Hsent |].
    destruct (Backend.serve w cfg req s) as [[result | e] s']; cbn [fst] in *.
    - cbn [Backend.sent] in Hsent. injection Hsent as <-. discriminate Hfalse.
    - reflexivity. }
  rewrite Hstatus in Hfetch. unfold Client._callServerless. rewrite Hfetch. reflexivity.
Qed.

Lemma backend_message_never_shown_witness :
  fst (Client._callServerless
         (ClientFacts.answering 500 (inr ClientFacts.unknown_action_envelope))
         (js "doTheThing") [] [])
  = Throw (Error (js "Serverless AI API error")).
Proof.
  apply (backend_message_never_shown
           (BackendFacts.answering (js "unused")) BackendFacts.only_gemini
           (BackendFacts.post (js "doTheThing") BackendFacts.no_params)
           BackendFacts.fresh
           (VObj [(js "success", VBool false);
                  (js "error", VStr (js "Unknown action: doTheThing"));
                  (js "timestamp", VStr (js "2023-11-14T22:13:20.000Z"))])
           (ClientFacts.answering 500 (inr ClientFacts.unknown_action_envelope))
           (js "doTheThing") [] [] (inr ClientFacts.unknown_action_envelope)).
  - vm_compute. reflexivity.
  - reflexivity.
  - reflexivity.
Defined.

End EndToEnd.
